(** * Scheduler monitoring system

    A shallow embedding of the scheduler state engine
    ([SchedulerService]), of its two DynamoDB repositories, of the Slack
    notification service, of the clock-driven worker
    ([SlackWorkerService]) and of the controller, followed by the
    properties of the specification that are settled on it and by
    further properties of the code.

    Conventions of the embedding.
    - A [Date] is the number of milliseconds since the epoch, a [Z].  The
      repositories store dates as the strings of [toISOString]; these
      have a fixed width (years 0000 to 9999), so they are ordered as the
      instants they denote, and [new Date (d.toISOString ())] is [d]: an
      item holds the instant itself.
    - A JavaScript object whose properties may be [undefined] is a record
      of options; [None] is an absent (or [undefined]) property.  A
      property that is present holds a value of its declared type: an
      explicit [null], which the types of the requests exclude, is not
      modelled.
    - [async] methods are computations in the monad [M]: they read and
      write the [World] (the two tables, the worker's message handle, the
      requests made to Slack) and either return or throw.
    - [new Date ()], [uuidv4 ()] and the outcome of the calls to DynamoDB
      and to the Slack Web API are given by the environment [Env].
    - A table fits in one page of a [scan] or [query] (the code never
      follows [LastEvaluatedKey]); the order in which a [scan] returns
      its items is the order of the keys in the model, and no property
      below depends on it.
    - [execution_time_ms] is a whole number of milliseconds.
    - Calls to the logger are left out. *)

From Stdlib Require Import ZArith Lia.
From stdpp Require Import base option list gmap strings pretty sorting.

(** ** Data model *)

(** [src/common/enums/scheduler-status.enum.ts] *)
Inductive SchedulerStatus := PENDING | RUNNING | COMPLETED | FAILED.

#[global] Instance SchedulerStatus_eq_dec : EqDecision SchedulerStatus.
Proof. solve_decision. Defined.

Definition status_value (s : SchedulerStatus) : string :=
  match s with
  | PENDING => "pending"
  | RUNNING => "running"
  | COMPLETED => "completed"
  | FAILED => "failed"
  end.

Definition STATUS_EMOJI (s : SchedulerStatus) : string :=
  match s with
  | PENDING => "⬜"
  | RUNNING => "🟡"
  | COMPLETED => "✅"
  | FAILED => "❌"
  end.

(** [SchedulerMetadata]: an open bag of keys and (JSON) values, never
    inspected by the code. *)
Definition SchedulerMetadata : Type := list (string * string).

(** [src/common/entities/scheduler.entity.ts].  The constructor takes a
    [Partial<Scheduler>] and assigns it, so an entity, a partial update
    and a DynamoDB item are all records of optional properties. *)
Record Scheduler := mkScheduler {
  scheduler_id : option string;
  service_name : option string;
  job_name : option string;
  status : option SchedulerStatus;
  timestamp : option Z;
  execution_time_ms : option Z;
  error_message : option string;
  metadata : option SchedulerMetadata;
  last_heartbeat : option Z;
  created_at : option Z;
  updated_at : option Z;
  owner_email : option string;
  alert_user_id : option string
}.

#[global] Instance Scheduler_eq_dec : EqDecision Scheduler.
Proof. solve_decision. Defined.

(** [isStale]: [now] is the [new Date ()] of the method body. *)
Definition isStale (now : Z) (this : Scheduler) (timeoutMinutes : Z) : bool :=
  match last_heartbeat this with
  | None => false
  | Some hb =>
      let diff := (now - hb)%Z in
      bool_decide (timeoutMinutes * 60 * 1000 < diff)%Z
  end.

Definition isPending (this : Scheduler) : bool :=
  bool_decide (status this = Some PENDING).
Definition isRunning (this : Scheduler) : bool :=
  bool_decide (status this = Some RUNNING).
Definition isCompleted (this : Scheduler) : bool :=
  bool_decide (status this = Some COMPLETED).
Definition isFailed (this : Scheduler) : bool :=
  bool_decide (status this = Some FAILED).

(** [src/common/entities/status-history.entity.ts] *)
Record StatusHistory := mkStatusHistory {
  h_id : option string;
  h_scheduler_id : option string;
  h_status : option SchedulerStatus;
  h_timestamp : option Z;
  h_execution_time_ms : option Z;
  h_error_message : option string;
  h_metadata : option SchedulerMetadata
}.

#[global] Instance StatusHistory_eq_dec : EqDecision StatusHistory.
Proof. solve_decision. Defined.

(** The request bodies, after validation by the boundary.
    [u_timestamp] is the instant that [new Date (dto.timestamp)] denotes. *)
Record RegisterSchedulerDto := mkRegisterSchedulerDto {
  r_scheduler_id : string;
  r_service_name : string;
  r_job_name : string;
  r_owner_email : option string;
  r_alert_user_id : option string
}.

Record UpdateStatusDto := mkUpdateStatusDto {
  u_scheduler_id : string;
  u_service_name : string;
  u_job_name : string;
  u_status : SchedulerStatus;
  u_timestamp : Z;
  u_execution_time_ms : option Z;
  u_error_message : option string;
  u_metadata : option SchedulerMetadata
}.

(** Slack Block Kit blocks, as far as the service builds them. *)
Inductive Block :=
  | Header (text : string)
  | Divider
  | SectionFields (fields : list string)
  | SectionText (text : string)
  | ContextBlock (elements : list string).

#[global] Instance Block_eq_dec : EqDecision Block.
Proof. solve_decision. Defined.

(** A request made to the Slack Web API. *)
Inductive SlackCall :=
  | PostMessage (blocks : list Block) (text : string)
  | UpdateMessage (ts : string) (blocks : list Block) (text : string).

#[global] Instance SlackCall_eq_dec : EqDecision SlackCall.
Proof. solve_decision. Defined.

(** ** The world and its environment *)

Record World := mkWorld {
  (** table [schedulers], partition key [scheduler_id] *)
  schedulers : gmap string Scheduler;
  (** table [scheduler_status_history], partition key [scheduler_id] and
      sort key [timestamp] ([scripts/setup-dynamodb.sh]) *)
  status_history : gmap (string * Z) StatusHistory;
  (** [SlackWorkerService.currentMessageTs] *)
  currentMessageTs : option string;
  (** the requests made to the Slack Web API so far, oldest first *)
  slack_calls : list SlackCall;
  (** how many times the clock has been read *)
  clock_reads : nat;
  (** how many identifiers [uuidv4] has produced *)
  uuids_drawn : nat
}.

Record Env := mkEnv {
  (** the n-th reading of the wall clock *)
  clock : nat -> Z;
  (** the n-th identifier drawn from [uuidv4] *)
  uuidv4 : nat -> string;
  (** whether DynamoDB answers the requests of the operation at hand *)
  dynamo_up : bool;
  (** configuration *)
  SLACK_ENABLED : bool;
  SLACK_START_HOUR : Z;
  SLACK_END_HOUR : Z;
  HEARTBEAT_TIMEOUT_MINUTES : Z;
  (** [chat.postMessage]: the [ts] of the message, or [None] when the call
      throws *)
  chat_postMessage : list Block -> string -> option string;
  (** [chat.update]: whether the call succeeds *)
  chat_update : string -> list Block -> string -> bool;
  (** [Date.prototype.getHours] *)
  getHours : Z -> Z;
  (** [dayjs (date).tz (timezone).format ('DD MMM YYYY HH:mm:ss')] *)
  dayjs_format : Z -> string;
  (** [(num / den).toFixed (digits)] *)
  toFixed : Z -> Z -> nat -> string
}.

(** ** Exceptions and the monad of asynchronous methods *)

Inductive Exn :=
  | NotFoundException (message : string)
  | DynamoDBError (code : string)
  | SlackError
  | TypeError.

Inductive Result (A : Type) :=
  | Ok (a : A)
  | Throw (e : Exn).
Arguments Ok {A} a.
Arguments Throw {A} e.

Definition M (A : Type) : Type := World -> Result A * World.

Definition ret {A} (a : A) : M A := fun w => (Ok a, w).
Definition throw {A} (e : Exn) : M A := fun w => (Throw e, w).
Definition bind {A B} (m : M A) (k : A -> M B) : M B :=
  fun w => match m w with
           | (Ok a, w') => k a w'
           | (Throw e, w') => (Throw e, w')
           end.
(** [try { m } catch (error) { h error }] *)
Definition try_catch {A} (m : M A) (h : Exn -> M A) : M A :=
  fun w => match m w with
           | (Ok a, w') => (Ok a, w')
           | (Throw e, w') => h e w'
           end.

Notation "x <~ m ;; k" := (bind m (fun x => k))
  (at level 100, m at next level, right associativity,
   format "'[v' x  <~  m  ;; '/' k ']'").
Notation "m ;;; k" := (bind m (fun _ => k))
  (at level 100, right associativity,
   format "'[v' m  ;;; '/' k ']'").

Fixpoint for_each {A} (f : A -> M unit) (l : list A) : M unit :=
  match l with
  | [] => ret tt
  | x :: l' => f x ;;; for_each f l'
  end.

Definition set_schedulers (t : gmap string Scheduler) (w : World) : World :=
  mkWorld t (status_history w) (currentMessageTs w) (slack_calls w)
          (clock_reads w) (uuids_drawn w).
Definition set_status_history (h : gmap (string * Z) StatusHistory) (w : World)
  : World :=
  mkWorld (schedulers w) h (currentMessageTs w) (slack_calls w)
          (clock_reads w) (uuids_drawn w).
Definition set_currentMessageTs (ts : option string) (w : World) : World :=
  mkWorld (schedulers w) (status_history w) ts (slack_calls w)
          (clock_reads w) (uuids_drawn w).
Definition log_slack_call (c : SlackCall) (w : World) : World :=
  mkWorld (schedulers w) (status_history w) (currentMessageTs w)
          (slack_calls w ++ [c]) (clock_reads w) (uuids_drawn w).
Definition tick_clock (w : World) : World :=
  mkWorld (schedulers w) (status_history w) (currentMessageTs w)
          (slack_calls w) (S (clock_reads w)) (uuids_drawn w).
Definition tick_uuid (w : World) : World :=
  mkWorld (schedulers w) (status_history w) (currentMessageTs w)
          (slack_calls w) (clock_reads w) (S (uuids_drawn w)).

(** [`${x}`] for a property that may be [undefined] *)
Definition interpolate (x : option string) : string :=
  match x with
  | Some s => s
  | None => "undefined"
  end.

Definition LF : string := String (Ascii.ascii_of_nat 10) EmptyString.

(** The truth value of an optional number: [undefined] and [0] are falsy. *)
Definition truthy_number (x : option Z) : bool :=
  match x with
  | Some n => negb (n =? 0)%Z
  | None => false
  end.

(** [x || 0] *)
Definition or_zero (x : option Z) : Z :=
  match x with
  | Some n => n
  | None => 0%Z
  end.

Section WithEnv.
Context (env : Env).

(** [new Date ()] *)
Definition new_Date : M Z :=
  fun w => (Ok (clock env (clock_reads w)), tick_clock w).

Definition new_uuid : M string :=
  fun w => (Ok (uuidv4 env (uuids_drawn w)), tick_uuid w).

(** A request to DynamoDB: it throws when the service cannot be reached
    and otherwise runs [op] on the tables. *)
Definition dynamo {A} (op : M A) : M A :=
  if dynamo_up env then op else throw (DynamoDBError "ServiceUnavailable").

End WithEnv.

(** ** [DynamoDBSchedulerRepository]
    [src/infrastructure/database/dynamodb/dynamodb-scheduler.repository.ts] *)
Module DynamoDBSchedulerRepository.
Section WithEnv.
Context (env : Env).

(** The dates of an item are parsed back with [new Date], and a missing
    [last_heartbeat] stays [undefined]. *)
Definition mapToEntity (item : Scheduler) : Scheduler :=
  {| scheduler_id := scheduler_id item;
     service_name := service_name item;
     job_name := job_name item;
     status := status item;
     timestamp := timestamp item;
     execution_time_ms := execution_time_ms item;
     error_message := error_message item;
     metadata := metadata item;
     last_heartbeat := last_heartbeat item;
     created_at := created_at item;
     updated_at := updated_at item;
     owner_email := owner_email item;
     alert_user_id := alert_user_id item |}.

(** The items of the table, as a [scan] returns them. *)
Definition scan (w : World) : list Scheduler :=
  (map_to_list (schedulers w)).*2.

(** [put] with [attribute_not_exists (scheduler_id)].  [timestamp] is
    dereferenced before the request is made. *)
Definition create (scheduler : Scheduler) : M Scheduler :=
  now <~ new_Date env ;;
  match timestamp scheduler with
  | None => throw TypeError
  | Some ts =>
      let item :=
        {| scheduler_id := scheduler_id scheduler;
           service_name := service_name scheduler;
           job_name := job_name scheduler;
           status := status scheduler;
           timestamp := Some ts;
           execution_time_ms := execution_time_ms scheduler;
           error_message := error_message scheduler;
           metadata := metadata scheduler;
           last_heartbeat := last_heartbeat scheduler;
           created_at := Some now;
           updated_at := Some now;
           owner_email := owner_email scheduler;
           alert_user_id := alert_user_id scheduler |} in
      dynamo env (fun w =>
        match scheduler_id item with
        | None => (Throw (DynamoDBError "ValidationException"), w)
        | Some id =>
            match schedulers w !! id with
            | Some _ =>
                (Throw (DynamoDBError "ConditionalCheckFailedException"), w)
            | None => (Ok tt, set_schedulers (<[id := item]> (schedulers w)) w)
            end
        end) ;;;
      ret (mapToEntity item)
  end.

Definition findById (schedulerId : string) : M (option Scheduler) :=
  dynamo env (fun w => (Ok (mapToEntity <$> schedulers w !! schedulerId), w)).

Definition findAll : M (list Scheduler) :=
  dynamo env (fun w => (Ok (mapToEntity <$> scan w), w)).

(** One [#key = :key] clause of the update expression: a property of
    [updates] that is [undefined] is left out of the expression. *)
Definition set_if_defined {A} (value old : option A) : option A :=
  match value with
  | Some v => Some v
  | None => old
  end.

(** The item that [SET updated_at = :updated_at, #k1 = :k1, ...] leaves
    under the key: [old] is the item found there. *)
Definition apply_updates (now : Z) (updates old : Scheduler) : Scheduler :=
  {| scheduler_id := scheduler_id old;
     service_name := set_if_defined (service_name updates) (service_name old);
     job_name := set_if_defined (job_name updates) (job_name old);
     status := set_if_defined (status updates) (status old);
     timestamp := set_if_defined (timestamp updates) (timestamp old);
     execution_time_ms :=
       set_if_defined (execution_time_ms updates) (execution_time_ms old);
     error_message :=
       set_if_defined (error_message updates) (error_message old);
     metadata := set_if_defined (metadata updates) (metadata old);
     last_heartbeat :=
       set_if_defined (last_heartbeat updates) (last_heartbeat old);
     created_at := set_if_defined (created_at updates) (created_at old);
     updated_at := Some now;
     owner_email := set_if_defined (owner_email updates) (owner_email old);
     alert_user_id :=
       set_if_defined (alert_user_id updates) (alert_user_id old) |}.

(** The item an update starts from: the one stored under the key, or,
    as [UpdateItem] adds the item when there is none, the key alone. *)
Definition item_at (schedulerId : string) (w : World) : Scheduler :=
  default {| scheduler_id := Some schedulerId;
             service_name := None; job_name := None; status := None;
             timestamp := None; execution_time_ms := None;
             error_message := None; metadata := None;
             last_heartbeat := None; created_at := None;
             updated_at := None; owner_email := None;
             alert_user_id := None |}
          (schedulers w !! schedulerId).

(** [update] with [ReturnValues: 'ALL_NEW'].  An [updated_at] among the
    updates would be set twice in one expression, which DynamoDB
    refuses. *)
Definition update (schedulerId : string) (updates : Scheduler)
  : M Scheduler :=
  now <~ new_Date env ;;
  dynamo env (fun w =>
    match updated_at updates with
    | Some _ => (Throw (DynamoDBError "ValidationException"), w)
    | None =>
        let item := apply_updates now updates (item_at schedulerId w) in
        (Ok (mapToEntity item),
         set_schedulers (<[schedulerId := item]> (schedulers w)) w)
    end).

Definition delete (schedulerId : string) : M unit :=
  dynamo env (fun w =>
    (Ok tt, set_schedulers (base.delete schedulerId (schedulers w)) w)).

(** [SET last_heartbeat = :timestamp, updated_at = :timestamp] *)
Definition with_heartbeat (now : Z) (old : Scheduler) : Scheduler :=
  {| scheduler_id := scheduler_id old;
     service_name := service_name old;
     job_name := job_name old;
     status := status old;
     timestamp := timestamp old;
     execution_time_ms := execution_time_ms old;
     error_message := error_message old;
     metadata := metadata old;
     last_heartbeat := Some now;
     created_at := created_at old;
     updated_at := Some now;
     owner_email := owner_email old;
     alert_user_id := alert_user_id old |}.

Definition updateHeartbeat (schedulerId : string) : M unit :=
  now <~ new_Date env ;;
  dynamo env (fun w =>
    let item := with_heartbeat now (item_at schedulerId w) in
    (Ok tt, set_schedulers (<[schedulerId := item]> (schedulers w)) w)).

(** [#status = :status] *)
Definition findByStatus (st : SchedulerStatus) : M (list Scheduler) :=
  dynamo env (fun w =>
    (Ok (mapToEntity <$>
           List.filter (fun item => bool_decide (status item = Some st))
                       (scan w)), w)).

(** [#status = :running AND last_heartbeat < :threshold]: a comparison
    with an attribute that the item does not have is false. *)
Definition stale_filter (threshold : Z) (item : Scheduler) : bool :=
  bool_decide (status item = Some RUNNING)
  && match last_heartbeat item with
     | Some hb => bool_decide (hb < threshold)%Z
     | None => false
     end.

(** [thresholdTime] is now with its minutes set to the current minutes
    less [timeoutMinutes]; [setMinutes] carries into the hours and days,
    so that is now moved back by [timeoutMinutes] minutes. *)
Definition findStaleSchedulers (timeoutMinutes : Z) : M (list Scheduler) :=
  now <~ new_Date env ;;
  let thresholdTime := (now - timeoutMinutes * 60 * 1000)%Z in
  dynamo env (fun w =>
    (Ok (mapToEntity <$> List.filter (stale_filter thresholdTime) (scan w)),
     w)).

(** [array.slice (start, end)], for indices that are natural numbers. *)
Definition slice {T} (array : list T) (start finish : nat) : list T :=
  take (finish - start) (drop start array).

(** The loop of [chunkArray] from the index [i] on, cut after [fuel]
    turns: [None] when the loop has not come to its end by then. *)
Fixpoint chunk_loop {T} (fuel : nat) (array : list T) (size i : nat)
  : option (list (list T)) :=
  match fuel with
  | 0 => if bool_decide (i < length array) then None else Some []
  | S fuel' =>
      if bool_decide (i < length array)
      then (fun chunks => slice array i (i + size) :: chunks)
             <$> chunk_loop fuel' array size (i + size)
      else Some []
  end.

(** [chunkArray]: a loop over a non-empty array takes at most as many
    turns as the array is long, unless [size] is 0, and then it takes
    turns for ever. *)
Definition chunkArray {T} (array : list T) (size : nat)
  : option (list (list T)) :=
  chunk_loop (length array) array size 0.

End WithEnv.
End DynamoDBSchedulerRepository.

(** ** [DynamoDBStatusHistoryRepository]
    [src/infrastructure/database/dynamodb/dynamodb-status-history.repository.ts] *)
Module DynamoDBStatusHistoryRepository.
Section WithEnv.
Context (env : Env).

Definition mapToEntity (item : StatusHistory) : StatusHistory :=
  {| h_id := h_id item;
     h_scheduler_id := h_scheduler_id item;
     h_status := h_status item;
     h_timestamp := h_timestamp item;
     h_execution_time_ms := h_execution_time_ms item;
     h_error_message := h_error_message item;
     h_metadata := h_metadata item |}.

(** [put], without a condition: the item takes the place of whatever
    the table holds under its key (scheduler_id, timestamp). *)
Definition create (statusHistory : StatusHistory) : M StatusHistory :=
  id <~ new_uuid env ;;
  match h_timestamp statusHistory with
  | None => throw TypeError
  | Some ts =>
      let item :=
        {| h_id := Some id;
           h_scheduler_id := h_scheduler_id statusHistory;
           h_status := h_status statusHistory;
           h_timestamp := Some ts;
           h_execution_time_ms := h_execution_time_ms statusHistory;
           h_error_message := h_error_message statusHistory;
           h_metadata := h_metadata statusHistory |} in
      dynamo env (fun w =>
        match h_scheduler_id item with
        | None => (Throw (DynamoDBError "ValidationException"), w)
        | Some sid =>
            (Ok tt,
             set_status_history (<[(sid, ts) := item]> (status_history w)) w)
        end) ;;;
      ret (mapToEntity item)
  end.

(** Sort key descending ([ScanIndexForward: false]). *)
Definition newer_first (a b : (string * Z) * StatusHistory) : Prop :=
  (b.1.2 ≤ a.1.2)%Z.

#[global] Instance newer_first_dec a b : Decision (newer_first a b).
Proof. unfold newer_first. apply _. Defined.

(** The items of one partition, newest first. *)
Definition query (schedulerId : string) (w : World) : list StatusHistory :=
  (merge_sort newer_first
     (List.filter (fun kv => bool_decide (kv.1.1 = schedulerId))
                  (map_to_list (status_history w)))).*2.

(** [limit] defaults to 50; DynamoDB refuses a [Limit] below 1. *)
Definition findBySchedulerId (schedulerId : string) (limit : option Z)
  : M (list StatusHistory) :=
  let limit := default 50%Z limit in
  dynamo env (fun w =>
    if (limit <? 1)%Z then (Throw (DynamoDBError "ValidationException"), w)
    else (Ok (mapToEntity <$> take (Z.to_nat limit) (query schedulerId w)),
          w)).



End WithEnv.
End DynamoDBStatusHistoryRepository.

(** ** [SlackNotificationService]
    [src/infrastructure/notification/slack/slack-notification.service.ts] *)
Module SlackNotificationService.
Section WithEnv.
Context (env : Env).

Definition isEnabled : bool := SLACK_ENABLED env.

Definition formatTimestamp (date : option Z) : string :=
  match date with
  | None => "N/A"
  | Some d => dayjs_format env d
  end.

Definition formatExecutionTime (ms : Z) : string :=
  if (ms <? 1000)%Z then pretty ms +:+ "ms"
  else if (ms <? 60000)%Z then toFixed env ms 1000 2 +:+ "s"
  else
    let minutes := (ms / 60000)%Z in
    let seconds := toFixed env (Z.rem ms 60000) 1000 0 in
    pretty minutes +:+ "m " +:+ seconds +:+ "s".

Record Summary := mkSummary {
  Pending : nat; Running : nat; Completed : nat; Failed : nat
}.

Definition count_status (summary : Summary) (scheduler : Scheduler)
  : Summary :=
  match status scheduler with
  | Some PENDING =>
      mkSummary (S (Pending summary)) (Running summary) (Completed summary)
                (Failed summary)
  | Some RUNNING =>
      mkSummary (Pending summary) (S (Running summary)) (Completed summary)
                (Failed summary)
  | Some COMPLETED =>
      mkSummary (Pending summary) (Running summary) (S (Completed summary))
                (Failed summary)
  | Some FAILED =>
      mkSummary (Pending summary) (Running summary) (Completed summary)
                (S (Failed summary))
  | None => summary
  end.

Definition buildStatusSummary (schedulers : list Scheduler) : Summary :=
  fold_left count_status schedulers (mkSummary 0 0 0 0).

(** [Object.entries (summary)], in the order of the literal. *)
Definition summary_entries (summary : Summary) : list (string * nat) :=
  [("Pending", Pending summary); ("Running", Running summary);
   ("Completed", Completed summary); ("Failed", Failed summary)].

(** [`${STATUS_EMOJI[scheduler.status]} ${scheduler.status}`] *)
Definition status_cell (scheduler : Scheduler) : string :=
  interpolate (STATUS_EMOJI <$> status scheduler) +:+ " "
  +:+ interpolate (status_value <$> status scheduler).

(** The blocks that one scheduler adds to the status table: its section
    and, under [if (scheduler.execution_time_ms)], its execution time. *)
Definition scheduler_blocks (scheduler : Scheduler) : list Block :=
  SectionFields
    [ "*Service:*" +:+ LF +:+ interpolate (service_name scheduler);
      "*Job:*" +:+ LF +:+ interpolate (job_name scheduler);
      "*Status:*" +:+ LF +:+ status_cell scheduler;
      "*Updated:*" +:+ LF +:+ formatTimestamp (updated_at scheduler) ]
  :: (if truthy_number (execution_time_ms scheduler)
      then [ContextBlock
              ["Execution time: "
               +:+ formatExecutionTime (or_zero (execution_time_ms scheduler))]]
      else []).

Definition legend : Block :=
  ContextBlock
    ["Legend: " +:+ STATUS_EMOJI PENDING +:+ " Pending | "
     +:+ STATUS_EMOJI RUNNING +:+ " Running | "
     +:+ STATUS_EMOJI COMPLETED +:+ " Success | "
     +:+ STATUS_EMOJI FAILED +:+ " Failed"].

Definition buildStatusTableBlocks (schedulers : list Scheduler) (ts : Z)
  : list Block :=
  let formattedTime := formatTimestamp (Some ts) in
  let summary := buildStatusSummary schedulers in
  [ Header ("📊 EOD Process Status - " +:+ formattedTime);
    Divider;
    SectionFields
      ((fun e : string * nat => "*" +:+ e.1 +:+ ":* " +:+ pretty e.2)
         <$> summary_entries summary);
    Divider ]
  ++ flat_map scheduler_blocks schedulers
  ++ [ Divider; legend ].

(** [client.chat.postMessage] inside [try { } catch { throw error }] *)
Definition postMessage (blocks : list Block) (text : string) : M string :=
  fun w =>
    let w' := log_slack_call (PostMessage blocks text) w in
    match chat_postMessage env blocks text with
    | Some ts => (Ok ts, w')
    | None => (Throw SlackError, w')
    end.

(** [client.chat.update] inside [try { } catch { throw error }] *)
Definition chatUpdate (messageTs : string) (blocks : list Block)
    (text : string) : M unit :=
  fun w =>
    let w' := log_slack_call (UpdateMessage messageTs blocks text) w in
    if chat_update env messageTs blocks text then (Ok tt, w')
    else (Throw SlackError, w').

Definition statusTableText : string := "EOD Process Status Update".

Definition sendStatusTable (schedulers : list Scheduler) (ts : Z)
  : M string :=
  if negb (SLACK_ENABLED env) then ret ""
  else
    let blocks := buildStatusTableBlocks schedulers ts in
    postMessage blocks statusTableText.

Definition updateStatusTable (messageTs : string)
    (schedulers : list Scheduler) (ts : Z) : M unit :=
  if negb (SLACK_ENABLED env) then ret tt
  else
    let blocks := buildStatusTableBlocks schedulers ts in
    chatUpdate messageTs blocks statusTableText.

Definition userMention (scheduler : Scheduler) : string :=
  match alert_user_id scheduler with
  | Some "" | None => "@channel"
  | Some u => "<@" +:+ u +:+ ">"
  end.

Definition failedJobBlocks (scheduler : Scheduler) : list Block :=
  [ Header "🚨 Job Failed Alert";
    SectionFields
      [ "*Service:*" +:+ LF +:+ interpolate (service_name scheduler);
        "*Job:*" +:+ LF +:+ interpolate (job_name scheduler);
        "*Status:*" +:+ LF +:+ status_cell scheduler;
        "*Time:*" +:+ LF +:+ formatTimestamp (timestamp scheduler) ] ]
  ++ match error_message scheduler with
     | Some "" | None => []
     | Some msg =>
         [SectionText ("*Error Message:*" +:+ LF +:+ "```" +:+ msg +:+ "```")]
     end
  ++ [ ContextBlock
         [userMention scheduler +:+ " Please investigate this issue."] ].

Definition failedJobText (scheduler : Scheduler) : string :=
  "Job Failed: " +:+ interpolate (service_name scheduler) +:+ " - "
  +:+ interpolate (job_name scheduler).

Definition sendFailedJobAlert (scheduler : Scheduler) : M unit :=
  if negb (SLACK_ENABLED env) then ret tt
  else
    postMessage (failedJobBlocks scheduler) (failedJobText scheduler) ;;;
    ret tt.

Definition timeoutWarningBlocks (scheduler : Scheduler) : list Block :=
  [ Header "⚠️ Job Timeout Warning";
    SectionFields
      [ "*Service:*" +:+ LF +:+ interpolate (service_name scheduler);
        "*Job:*" +:+ LF +:+ interpolate (job_name scheduler);
        "*Status:*" +:+ LF +:+ status_cell scheduler;
        "*Last Heartbeat:*" +:+ LF
        +:+ formatTimestamp (last_heartbeat scheduler) ];
    ContextBlock
      [userMention scheduler
       +:+ " No heartbeat received within threshold. Job may be stuck."] ].

Definition timeoutWarningText (scheduler : Scheduler) : string :=
  "Job Timeout: " +:+ interpolate (service_name scheduler) +:+ " - "
  +:+ interpolate (job_name scheduler).

Definition sendTimeoutWarning (scheduler : Scheduler) : M unit :=
  if negb (SLACK_ENABLED env) then ret tt
  else
    postMessage (timeoutWarningBlocks scheduler)
      (timeoutWarningText scheduler) ;;;
    ret tt.

Definition allClearText : string := "All EOD Jobs Completed".

Definition allClearBlocks (schedulers : list Scheduler) (now : Z)
  : list Block :=
  let completedCount := length (List.filter isCompleted schedulers) in
  let totalCount := length schedulers in
  let totalExecutionTime :=
    fold_left (fun sum s => (sum + or_zero (execution_time_ms s))%Z)
      (List.filter (fun s => truthy_number (execution_time_ms s)) schedulers)
      0%Z in
  [ Header "✅ All EOD Jobs Completed";
    SectionFields
      [ "*Total Jobs:*" +:+ LF +:+ pretty totalCount;
        "*Completed:*" +:+ LF +:+ pretty completedCount;
        "*Total Execution Time:*" +:+ LF
        +:+ formatExecutionTime totalExecutionTime;
        "*Completion Time:*" +:+ LF +:+ formatTimestamp (Some now) ];
    Divider ]
  ++ ((fun scheduler =>
         SectionText
           (interpolate (STATUS_EMOJI <$> status scheduler) +:+ " *"
            +:+ interpolate (service_name scheduler) +:+ "* - "
            +:+ interpolate (job_name scheduler) +:+ LF
            +:+ "_Execution time: "
            +:+ formatExecutionTime (or_zero (execution_time_ms scheduler))
            +:+ "_")) <$> schedulers).

Definition sendAllClearSummary (schedulers : list Scheduler) : M unit :=
  if negb (SLACK_ENABLED env) then ret tt
  else
    now <~ new_Date env ;;
    postMessage (allClearBlocks schedulers now) allClearText ;;;
    ret tt.

End WithEnv.
End SlackNotificationService.

(** ** [SchedulerService]  ([src/modules/schedulers/scheduler.service.ts]) *)
Module SchedulerService.
Section WithEnv.
Context (env : Env).

Definition heartbeatTimeoutMinutes : Z := HEARTBEAT_TIMEOUT_MINUTES env.

(** The updates of a registration that finds the scheduler. *)
Definition descriptive_updates (dto : RegisterSchedulerDto) : Scheduler :=
  {| scheduler_id := None;
     service_name := Some (r_service_name dto);
     job_name := Some (r_job_name dto);
     status := None; timestamp := None; execution_time_ms := None;
     error_message := None; metadata := None; last_heartbeat := None;
     created_at := None; updated_at := None;
     owner_email := r_owner_email dto;
     alert_user_id := r_alert_user_id dto |}.

(** The entity of a registration that finds none; the three dates are
    three readings of the clock. *)
Definition new_scheduler (dto : RegisterSchedulerDto)
    (t_timestamp t_created t_updated : Z) : Scheduler :=
  {| scheduler_id := Some (r_scheduler_id dto);
     service_name := Some (r_service_name dto);
     job_name := Some (r_job_name dto);
     status := Some PENDING;
     timestamp := Some t_timestamp;
     execution_time_ms := None; error_message := None;
     metadata := None; last_heartbeat := None;
     created_at := Some t_created;
     updated_at := Some t_updated;
     owner_email := r_owner_email dto;
     alert_user_id := r_alert_user_id dto |}.

Definition registerScheduler (dto : RegisterSchedulerDto) : M Scheduler :=
  existing <~ DynamoDBSchedulerRepository.findById env (r_scheduler_id dto) ;;
  match existing with
  | Some _ =>
      DynamoDBSchedulerRepository.update env (r_scheduler_id dto)
        (descriptive_updates dto)
  | None =>
      t_timestamp <~ new_Date env ;;
      t_created <~ new_Date env ;;
      t_updated <~ new_Date env ;;
      DynamoDBSchedulerRepository.create env
        (new_scheduler dto t_timestamp t_created t_updated)
  end.

(** [new StatusHistory ({ ... })] *)
Definition snapshot (scheduler : Scheduler) : StatusHistory :=
  {| h_id := None;
     h_scheduler_id := scheduler_id scheduler;
     h_status := status scheduler;
     h_timestamp := timestamp scheduler;
     h_execution_time_ms := execution_time_ms scheduler;
     h_error_message := error_message scheduler;
     h_metadata := metadata scheduler |}.

Definition createStatusHistory (scheduler : Scheduler) : M unit :=
  DynamoDBStatusHistoryRepository.create env (snapshot scheduler) ;;;
  ret tt.

Definition handleFailedJob (scheduler : Scheduler) : M unit :=
  SlackNotificationService.sendFailedJobAlert env scheduler.

(** The updates of a status report; [t_heartbeat] is its [new Date ()]. *)
Definition status_updates (dto : UpdateStatusDto) (t_heartbeat : Z)
  : Scheduler :=
  {| scheduler_id := None;
     service_name := Some (u_service_name dto);
     job_name := Some (u_job_name dto);
     status := Some (u_status dto);
     timestamp := Some (u_timestamp dto);
     execution_time_ms := u_execution_time_ms dto;
     error_message := u_error_message dto;
     metadata := u_metadata dto;
     last_heartbeat := Some t_heartbeat;
     created_at := None; updated_at := None;
     owner_email := None; alert_user_id := None |}.

Definition updateStatus (dto : UpdateStatusDto) : M Scheduler :=
  existing <~ DynamoDBSchedulerRepository.findById env (u_scheduler_id dto) ;;
  match existing with
  | None =>
      throw (NotFoundException
               ("Scheduler " +:+ u_scheduler_id dto
                +:+ " not found. Please register first."))
  | Some _ =>
      t_heartbeat <~ new_Date env ;;
      updatedScheduler <~
        DynamoDBSchedulerRepository.update env (u_scheduler_id dto)
          (status_updates dto t_heartbeat) ;;
      createStatusHistory updatedScheduler ;;;
      (if bool_decide (u_status dto = FAILED)
       then handleFailedJob updatedScheduler
       else ret tt) ;;;
      ret updatedScheduler
  end.

Definition updateHeartbeat (schedulerId : string) : M unit :=
  existing <~ DynamoDBSchedulerRepository.findById env schedulerId ;;
  match existing with
  | None =>
      throw (NotFoundException
               ("Scheduler " +:+ schedulerId
                +:+ " not found. Please register first."))
  | Some _ => DynamoDBSchedulerRepository.updateHeartbeat env schedulerId
  end.

Definition getScheduler (schedulerId : string) : M Scheduler :=
  scheduler <~ DynamoDBSchedulerRepository.findById env schedulerId ;;
  match scheduler with
  | None =>
      throw (NotFoundException ("Scheduler " +:+ schedulerId +:+ " not found"))
  | Some s => ret s
  end.

Definition getAllSchedulers : M (list Scheduler) :=
  DynamoDBSchedulerRepository.findAll env.

Definition getSchedulerHistory (schedulerId : string) (limit : option Z)
  : M (list StatusHistory) :=
  DynamoDBStatusHistoryRepository.findBySchedulerId env schedulerId limit.

Definition checkStaleSchedulers : M unit :=
  staleSchedulers <~
    DynamoDBSchedulerRepository.findStaleSchedulers env
      heartbeatTimeoutMinutes ;;
  for_each (SlackNotificationService.sendTimeoutWarning env) staleSchedulers.

Definition checkAllClear : M bool :=
  schedulers <~ DynamoDBSchedulerRepository.findAll env ;;
  let allCompleted := forallb isCompleted schedulers in
  if allCompleted && bool_decide (0 < length schedulers)
  then SlackNotificationService.sendAllClearSummary env schedulers ;;;
       ret true
  else ret false.

End WithEnv.
End SchedulerService.

(** ** [SlackWorkerService]
    [src/modules/schedulers/slack-worker.service.ts] *)
Module SlackWorkerService.
Section WithEnv.
Context (env : Env).

Definition startHour : Z := SLACK_START_HOUR env.
Definition endHour : Z := SLACK_END_HOUR env.

(** The handle as a condition tests it: [null] and [''] are falsy. *)
Definition held (ts : option string) : option string :=
  match ts with
  | Some "" | None => None
  | Some t => Some t
  end.

Definition read_currentMessageTs : M (option string) :=
  fun w => (Ok (currentMessageTs w), w).
Definition write_currentMessageTs (ts : option string) : M unit :=
  fun w => (Ok tt, set_currentMessageTs ts w).

Definition sendInitialStatusTable : M unit :=
  if negb (SlackNotificationService.isEnabled env) then ret tt
  else
    try_catch
      (schedulers <~ DynamoDBSchedulerRepository.findAll env ;;
       now <~ new_Date env ;;
       messageTs <~
         SlackNotificationService.sendStatusTable env schedulers now ;;
       write_currentMessageTs (Some messageTs))
      (fun _ => ret tt).

Definition updateStatusTable : M unit :=
  if negb (SlackNotificationService.isEnabled env) then ret tt
  else
    now <~ new_Date env ;;
    let currentHour := getHours env now in
    if bool_decide (currentHour ≤ startHour)%Z
       || bool_decide (endHour < currentHour)%Z
    then ret tt
    else
      ts <~ read_currentMessageTs ;;
      match held ts with
      | None => sendInitialStatusTable
      | Some _ =>
          try_catch
            (schedulers <~ DynamoDBSchedulerRepository.findAll env ;;
             ts <~ read_currentMessageTs ;;
             now <~ new_Date env ;;
             SlackNotificationService.updateStatusTable env
               (default "" ts) schedulers now)
            (fun _ => write_currentMessageTs None)
      end.

Definition sendFinalStatusSummary : M unit :=
  if negb (SlackNotificationService.isEnabled env) then ret tt
  else
    try_catch
      (schedulers <~ DynamoDBSchedulerRepository.findAll env ;;
       ts <~ read_currentMessageTs ;;
       match held ts with
       | Some ts =>
           now <~ new_Date env ;;
           SlackNotificationService.updateStatusTable env ts schedulers now
       | None => ret tt
       end ;;;
       let allCompleted := forallb isCompleted schedulers in
       (if allCompleted && bool_decide (0 < length schedulers)
        then SlackNotificationService.sendAllClearSummary env schedulers
        else ret tt) ;;;
       write_currentMessageTs None)
      (fun _ => ret tt).

Definition checkStaleSchedulers : M unit :=
  now <~ new_Date env ;;
  let currentHour := getHours env now in
  if bool_decide (currentHour < startHour)%Z
     || bool_decide (endHour < currentHour)%Z
  then ret tt
  else
    try_catch
      (staleSchedulers <~
         DynamoDBSchedulerRepository.findStaleSchedulers env
           (HEARTBEAT_TIMEOUT_MINUTES env) ;;
       for_each (SlackNotificationService.sendTimeoutWarning env)
         staleSchedulers)
      (fun _ => ret tt).

End WithEnv.
End SlackWorkerService.

(** ** [SchedulerController]
    [src/modules/schedulers/scheduler.controller.ts] *)
Module SchedulerController.
Section WithEnv.
Context (env : Env).

(** The answer to a heartbeat. *)
Record HeartbeatResponse := mkHeartbeatResponse {
  hr_message : string;
  hr_scheduler_id : string;
  hr_timestamp : Z
}.

Definition registerScheduler (dto : RegisterSchedulerDto) : M Scheduler :=
  SchedulerService.registerScheduler env dto.

(** [dto.scheduler_id = id] *)
Definition with_scheduler_id (id : string) (dto : UpdateStatusDto)
  : UpdateStatusDto :=
  {| u_scheduler_id := id;
     u_service_name := u_service_name dto;
     u_job_name := u_job_name dto;
     u_status := u_status dto;
     u_timestamp := u_timestamp dto;
     u_execution_time_ms := u_execution_time_ms dto;
     u_error_message := u_error_message dto;
     u_metadata := u_metadata dto |}.

Definition updateStatus (id : string) (dto : UpdateStatusDto) : M Scheduler :=
  let dto :=
    if bool_decide (id ≠ u_scheduler_id dto) then with_scheduler_id id dto
    else dto in
  SchedulerService.updateStatus env dto.

Definition sendHeartbeat (id : string) : M HeartbeatResponse :=
  SchedulerService.updateHeartbeat env id ;;;
  now <~ new_Date env ;;
  ret {| hr_message := "Heartbeat recorded";
         hr_scheduler_id := id;
         hr_timestamp := now |}.

Definition getAllSchedulers : M (list Scheduler) :=
  SchedulerService.getAllSchedulers env.

Definition getScheduler (id : string) : M Scheduler :=
  SchedulerService.getScheduler env id.

Definition getSchedulerHistory (id : string) (limit : option Z)
  : M (list StatusHistory) :=
  SchedulerService.getSchedulerHistory env id limit.

End WithEnv.
End SchedulerController.

(** * Vocabulary of the properties *)

(** ** Status reports and heartbeats *)

(** The history item that a status report writes for the scheduler
    [s] it has just stored, in the world [w] it started from. *)
Definition history_item (env : Env) (w : World) (s : Scheduler)
  : StatusHistory :=
  {| h_id := Some (uuidv4 env (uuids_drawn w));
     h_scheduler_id := scheduler_id s;
     h_status := status s;
     h_timestamp := timestamp s;
     h_execution_time_ms := execution_time_ms s;
     h_error_message := error_message s;
     h_metadata := metadata s |}.

(** The scheduler that a status report stores in place of [old]: the
    first reading of the clock is the heartbeat, the second the update. *)
Definition reported (env : Env) (w : World) (dto : UpdateStatusDto)
    (old : Scheduler) : Scheduler :=
  DynamoDBSchedulerRepository.apply_updates
    (clock env (S (clock_reads w)))
    (SchedulerService.status_updates dto (clock env (clock_reads w)))
    old.

(** The world once the scheduler and its history item are written. *)
Definition after_report (env : Env) (w : World) (dto : UpdateStatusDto)
    (old : Scheduler) (sid : string) : World :=
  let s := reported env w dto old in
  mkWorld (<[u_scheduler_id dto := s]> (schedulers w))
          (<[(sid, u_timestamp dto) := history_item env w s]>
             (status_history w))
          (currentMessageTs w) (slack_calls w)
          (S (S (clock_reads w))) (S (uuids_drawn w)).

(** [new] is [old] but for [last_heartbeat] and [updated_at]. *)
Definition same_but_liveness (old new : Scheduler) : Prop :=
  scheduler_id new = scheduler_id old
  /\ service_name new = service_name old
  /\ job_name new = job_name old
  /\ status new = status old
  /\ timestamp new = timestamp old
  /\ execution_time_ms new = execution_time_ms old
  /\ error_message new = error_message old
  /\ metadata new = metadata old
  /\ created_at new = created_at old
  /\ owner_email new = owner_email old
  /\ alert_user_id new = alert_user_id old.

(** ** The close of the window *)

(** The all-clear condition of [sendFinalStatusSummary] and of
    [checkAllClear]. *)
Definition all_clear (schedulers : list Scheduler) : bool :=
  forallb isCompleted schedulers && bool_decide (0 < length schedulers).

(** The final edit of the held message, if one is held: the request and
    whether Slack accepts it. *)
Definition final_edit (env : Env) (w : World) : list SlackCall :=
  match SlackWorkerService.held (currentMessageTs w) with
  | Some ts =>
      [UpdateMessage ts
         (SlackNotificationService.buildStatusTableBlocks env
            (DynamoDBSchedulerRepository.scan w) (clock env (clock_reads w)))
         SlackNotificationService.statusTableText]
  | None => []
  end.

(** Whether Slack accepts the final edit; there is nothing to refuse
    when no message is held. *)
Definition final_edit_ok (env : Env) (w : World) : bool :=
  match SlackWorkerService.held (currentMessageTs w) with
  | Some ts =>
      chat_update env ts
        (SlackNotificationService.buildStatusTableBlocks env
           (DynamoDBSchedulerRepository.scan w) (clock env (clock_reads w)))
        SlackNotificationService.statusTableText
  | None => true
  end.

(** The blocks of the all-clear summary of the close; its completion
    time is read after the final edit. *)
Definition all_clear_blocks (env : Env) (w : World) : list Block :=
  SlackNotificationService.allClearBlocks env
    (DynamoDBSchedulerRepository.scan w)
    (clock env (length (final_edit env w) + clock_reads w)).

(** Whether Slack accepts the all-clear summary of the close. *)
Definition all_clear_ok (env : Env) (w : World) : bool :=
  bool_decide (is_Some (chat_postMessage env (all_clear_blocks env w)
                          SlackNotificationService.allClearText)).


(** ** Operations, reachable worlds and invariants *)

(** The world at start-up: empty tables, no message held. *)
Definition empty_world : World := mkWorld ∅ ∅ None [] 0 0.

(** The operations of the system: the six of the service that the
    controller exposes, the two checks of the service, and the four
    triggers of the worker. *)
Inductive Operation :=
  | Register (dto : RegisterSchedulerDto)
  | ReportStatus (dto : UpdateStatusDto)
  | RecordHeartbeat (id : string)
  | Get (id : string)
  | ListAll
  | History (id : string) (limit : option Z)
  | CheckStale
  | CheckAllClear
  | WindowOpen
  | Refresh
  | WindowClose
  | StaleSweep.

(** The world an operation ends in, whether it returns or throws. *)
Definition run (env : Env) (op : Operation) (w : World) : World :=
  match op with
  | Register dto => (SchedulerService.registerScheduler env dto w).2
  | ReportStatus dto => (SchedulerService.updateStatus env dto w).2
  | RecordHeartbeat id => (SchedulerService.updateHeartbeat env id w).2
  | Get id => (SchedulerService.getScheduler env id w).2
  | ListAll => (SchedulerService.getAllSchedulers env w).2
  | History id limit => (SchedulerService.getSchedulerHistory env id limit w).2
  | CheckStale => (SchedulerService.checkStaleSchedulers env w).2
  | CheckAllClear => (SchedulerService.checkAllClear env w).2
  | WindowOpen => (SlackWorkerService.sendInitialStatusTable env w).2
  | Refresh => (SlackWorkerService.updateStatusTable env w).2
  | WindowClose => (SlackWorkerService.sendFinalStatusSummary env w).2
  | StaleSweep => (SlackWorkerService.checkStaleSchedulers env w).2
  end.

(** The worlds reached from the empty one.  Each operation meets an
    environment of its own (its clock, the mood of DynamoDB and of
    Slack); only [SLACK_ENABLED], read once at start-up, is the same
    throughout. *)
Inductive reachable (enabled : bool) : World -> Prop :=
  | reachable_start : reachable enabled empty_world
  | reachable_step (env : Env) (op : Operation) (w : World) :
      SLACK_ENABLED env = enabled ->
      reachable enabled w ->
      reachable enabled (run env op w).

(** Every stored item carries, as its [scheduler_id], the key it is
    stored under. *)
Definition keys_consistent (w : World) : Prop :=
  map_Forall (fun id item => scheduler_id item = Some id) (schedulers w).

(** [P] looks at nothing but the scheduler table and the handle. *)
Definition table_and_handle_only (P : World -> Prop) : Prop :=
  forall w w',
    schedulers w' = schedulers w ->
    currentMessageTs w' = currentMessageTs w ->
    P w -> P w'.

(** [m] keeps the property [P] of the world, whether it returns or
    throws. *)
Definition preserves {A} (P : World -> Prop) (m : M A) : Prop :=
  forall w, P w -> P (m w).2.

(** The worker holds the handle [h]. *)
Definition handle_is (h : option string) (w : World) : Prop :=
  currentMessageTs w = h.

(** ** Worked examples: environments *)

(** An environment in which every collaborator answers.  The clock
    advances by one second per reading, from 05:13:20 local time
    (UTC+7) on. *)
Definition env_ok : Env :=
  {| clock := fun n => (1700000000000 + 1000 * Z.of_nat n)%Z;
     uuidv4 := fun n => "uuid-" +:+ pretty n;
     dynamo_up := true;
     SLACK_ENABLED := true;
     SLACK_START_HOUR := 0;
     SLACK_END_HOUR := 6;
     HEARTBEAT_TIMEOUT_MINUTES := 10;
     chat_postMessage := fun _ _ => Some "1700000000.000100";
     chat_update := fun _ _ _ => true;
     getHours := fun t => ((t / 3600000 + 7) `mod` 24)%Z;
     dayjs_format := fun t => pretty t;
     toFixed := fun num den _ => pretty (num / den)%Z |}.

(** The same environment with a Slack Web API that refuses every call. *)
Definition env_slack_down : Env :=
  {| clock := clock env_ok;
     uuidv4 := uuidv4 env_ok;
     dynamo_up := true;
     SLACK_ENABLED := true;
     SLACK_START_HOUR := 0;
     SLACK_END_HOUR := 6;
     HEARTBEAT_TIMEOUT_MINUTES := 10;
     chat_postMessage := fun _ _ => None;
     chat_update := fun _ _ _ => false;
     getHours := getHours env_ok;
     dayjs_format := dayjs_format env_ok;
     toFixed := toFixed env_ok |}.

(** The environment [env_ok] with a DynamoDB that cannot be reached. *)
Definition env_dynamo_down : Env :=
  {| clock := clock env_ok;
     uuidv4 := uuidv4 env_ok;
     dynamo_up := false;
     SLACK_ENABLED := true;
     SLACK_START_HOUR := 0;
     SLACK_END_HOUR := 6;
     HEARTBEAT_TIMEOUT_MINUTES := 10;
     chat_postMessage := chat_postMessage env_ok;
     chat_update := chat_update env_ok;
     getHours := getHours env_ok;
     dayjs_format := dayjs_format env_ok;
     toFixed := toFixed env_ok |}.

(** ** Worked examples: schedulers, requests and worlds *)

(** A scheduler that failed with a timeout after fifteen seconds. *)
Definition failed_job : Scheduler :=
  {| scheduler_id := Some "svc-a-eod";
     service_name := Some "Service A";
     job_name := Some "EOD Processing";
     status := Some FAILED;
     timestamp := Some 1699999000000%Z;
     execution_time_ms := Some 15000%Z;
     error_message := Some "timeout";
     metadata := Some [("records_processed", "1000")];
     last_heartbeat := Some 1699999000000%Z;
     created_at := Some 1699990000000%Z;
     updated_at := Some 1699999000000%Z;
     owner_email := Some "owner@example.com";
     alert_user_id := Some "U1234567890" |}.

(** The world whose scheduler table holds [s] alone, under its id. *)
Definition world_with (s : Scheduler) : World :=
  mkWorld {[ default "" (scheduler_id s) := s ]} ∅ None [] 0 0.

(** A report that the job runs again, without the optional properties. *)
Definition running_report : UpdateStatusDto :=
  {| u_scheduler_id := "svc-a-eod";
     u_service_name := "Service A";
     u_job_name := "EOD Processing";
     u_status := RUNNING;
     u_timestamp := 1700000000000%Z;
     u_execution_time_ms := None;
     u_error_message := None;
     u_metadata := None |}.

(** A report that the job failed. *)
Definition failed_report : UpdateStatusDto :=
  {| u_scheduler_id := "svc-a-eod";
     u_service_name := "Service A";
     u_job_name := "EOD Processing";
     u_status := FAILED;
     u_timestamp := 1700000000000%Z;
     u_execution_time_ms := None;
     u_error_message := Some "Database connection timeout";
     u_metadata := None |}.

(** The scheduler of [failed_job] registered again, under a new service
    name. *)
Definition second_registration : RegisterSchedulerDto :=
  {| r_scheduler_id := "svc-a-eod";
     r_service_name := "Service A (v2)";
     r_job_name := "EOD Processing";
     r_owner_email := None;
     r_alert_user_id := None |}.

(** A running scheduler with the given last heartbeat. *)
Definition running_job (id : string) (heartbeat : option Z) : Scheduler :=
  {| scheduler_id := Some id;
     service_name := Some "Service A";
     job_name := Some id;
     status := Some RUNNING;
     timestamp := Some 1699999000000%Z;
     execution_time_ms := None;
     error_message := None;
     metadata := None;
     last_heartbeat := heartbeat;
     created_at := Some 1699990000000%Z;
     updated_at := Some 1699999000000%Z;
     owner_email := None;
     alert_user_id := None |}.

(** Three running schedulers: the last heartbeat of the first is eleven
    minutes old at the first reading of the clock, that of the second
    nine minutes old, and the third has none. *)
Definition late_job : Scheduler := running_job "late" (Some 1699999340000%Z).
Definition fresh_job : Scheduler := running_job "fresh" (Some 1699999460000%Z).
Definition silent_job : Scheduler := running_job "silent" None.

Definition three_running : World :=
  mkWorld (<["late" := late_job]>
             (<["fresh" := fresh_job]> {["silent" := silent_job]}))
          ∅ None [] 0 0.

(** A scheduler that completed in no time at all. *)
Definition instant_job : Scheduler :=
  {| scheduler_id := Some "svc-b-noop";
     service_name := Some "Service B";
     job_name := Some "No-op";
     status := Some COMPLETED;
     timestamp := Some 1699999000000%Z;
     execution_time_ms := Some 0%Z;
     error_message := None;
     metadata := None;
     last_heartbeat := None;
     created_at := Some 1699990000000%Z;
     updated_at := Some 1699999000000%Z;
     owner_email := None;
     alert_user_id := None |}.

(** A night before the close of the window: two schedulers register and
    report that they completed, and the window opens. *)
Definition register_job (id : string) : RegisterSchedulerDto :=
  {| r_scheduler_id := id;
     r_service_name := "Service A";
     r_job_name := id;
     r_owner_email := None;
     r_alert_user_id := None |}.

Definition completed_report (id : string) (ms : Z) : UpdateStatusDto :=
  {| u_scheduler_id := id;
     u_service_name := "Service A";
     u_job_name := id;
     u_status := COMPLETED;
     u_timestamp := 1699999000000%Z;
     u_execution_time_ms := Some ms;
     u_error_message := None;
     u_metadata := None |}.

Definition both_registered : World :=
  run env_ok (Register (register_job "b"))
    (run env_ok (Register (register_job "a")) empty_world).

Definition both_completed : World :=
  run env_ok (ReportStatus (completed_report "b" 61000))
    (run env_ok (ReportStatus (completed_report "a" 15000)) both_registered).

Definition all_done : World := run env_ok WindowOpen both_completed.

(** ** Vocabulary of the further properties *)

(** The entity that [create] stores for [s] at the moment [now]. *)
Definition stamped (now : Z) (s : Scheduler) : Scheduler :=
  {| scheduler_id := scheduler_id s;
     service_name := service_name s;
     job_name := job_name s;
     status := status s;
     timestamp := timestamp s;
     execution_time_ms := execution_time_ms s;
     error_message := error_message s;
     metadata := metadata s;
     last_heartbeat := last_heartbeat s;
     created_at := Some now;
     updated_at := Some now;
     owner_email := owner_email s;
     alert_user_id := alert_user_id s |}.

(** An item that holds its key, a heartbeat and nothing else. *)
Definition heartbeat_only (id : string) (now : Z) : Scheduler :=
  {| scheduler_id := Some id;
     service_name := None; job_name := None; status := None;
     timestamp := None; execution_time_ms := None;
     error_message := None; metadata := None;
     last_heartbeat := Some now; created_at := None;
     updated_at := Some now; owner_email := None;
     alert_user_id := None |}.

(** Every chunk but the last holds [size] elements. *)
Definition full_but_last {T} (size : nat) (chunks : list (list T)) : Prop :=
  forall i chunk,
    chunks !! i = Some chunk -> S i < length chunks -> length chunk = size.


(** The status table of the stored schedulers, dated [now]. *)
Definition status_table (env : Env) (w : World) (now : Z) : list Block :=
  SlackNotificationService.buildStatusTableBlocks env
    (DynamoDBSchedulerRepository.scan w) now.

(** The hour that the worker reads off the clock in the world [w]. *)
Definition current_hour (env : Env) (w : World) : Z :=
  getHours env (clock env (clock_reads w)).

(** The hours in which the hourly refresh works, and those in which the
    sweep for stale schedulers does. *)
Definition refresh_hours (env : Env) (hour : Z) : Prop :=
  (SLACK_START_HOUR env < hour <= SLACK_END_HOUR env)%Z.





(** The alert of a failed job. *)
Definition failed_alert (env : Env) (s : Scheduler) : SlackCall :=
  PostMessage (SlackNotificationService.failedJobBlocks env s)
    (SlackNotificationService.failedJobText s).

(** How many schedulers of a list have the status [st]. *)
Definition with_status (st : option SchedulerStatus)
    (schedulers : list Scheduler) : nat :=
  length (List.filter (fun s => bool_decide (status s = st)) schedulers).

(** [new] has the identity of [old]: its key and its date of creation. *)
Definition same_identity (old new : Scheduler) : Prop :=
  scheduler_id new = scheduler_id old /\ created_at new = created_at old.

(** [new] shows the report that [old] shows. *)
Definition same_report (old new : Scheduler) : Prop :=
  status new = status old
  /\ timestamp new = timestamp old
  /\ execution_time_ms new = execution_time_ms old
  /\ error_message new = error_message old
  /\ metadata new = metadata old.

(** [m] returns, whatever the world and the environment do. *)
Definition never_throws (m : M unit) : Prop :=
  forall w, exists w', m w = (Ok tt, w').

(** [m] leaves the two tables as they are. *)
Definition keeps_tables {A} (m : M A) : Prop :=
  forall w,
    schedulers (m w).2 = schedulers w
    /\ status_history (m w).2 = status_history w.

(** Every item of the history carries the key it is stored under, an
    identifier and a status, and belongs to a stored scheduler. *)
Definition history_well_keyed (w : World) : Prop :=
  forall sid ts h,
    status_history w !! (sid, ts) = Some h ->
    h_scheduler_id h = Some sid
    /\ h_timestamp h = Some ts
    /\ is_Some (h_id h)
    /\ is_Some (h_status h)
    /\ is_Some (schedulers w !! sid).

(** The environment [env_ok] with a window that opens at five. *)
Definition env_opening_at_five : Env :=
  {| clock := clock env_ok;
     uuidv4 := uuidv4 env_ok;
     dynamo_up := true;
     SLACK_ENABLED := true;
     SLACK_START_HOUR := 5;
     SLACK_END_HOUR := 6;
     HEARTBEAT_TIMEOUT_MINUTES := 10;
     chat_postMessage := chat_postMessage env_ok;
     chat_update := chat_update env_ok;
     getHours := getHours env_ok;
     dayjs_format := dayjs_format env_ok;
     toFixed := toFixed env_ok |}.

(** The environment [env_ok] with Slack disabled. *)
Definition env_slack_off : Env :=
  {| clock := clock env_ok;
     uuidv4 := uuidv4 env_ok;
     dynamo_up := true;
     SLACK_ENABLED := false;
     SLACK_START_HOUR := 0;
     SLACK_END_HOUR := 6;
     HEARTBEAT_TIMEOUT_MINUTES := 10;
     chat_postMessage := chat_postMessage env_ok;
     chat_update := chat_update env_ok;
     getHours := getHours env_ok;
     dayjs_format := dayjs_format env_ok;
     toFixed := toFixed env_ok |}.

(** * Lemmas and theorems *)

(** ** The repositories, when DynamoDB answers *)

Section RepositoryFacts.
Context (env : Env).
Hypothesis dynamo_answers : dynamo_up env = true.

Lemma dynamo_run {A} (op : M A) (w : World) : dynamo env op w = op w.
Proof. unfold dynamo. by rewrite dynamo_answers. Qed.

Lemma mapToEntity_id (item : Scheduler) :
  DynamoDBSchedulerRepository.mapToEntity item = item.
Proof. by destruct item. Qed.

Lemma fmap_mapToEntity (items : list Scheduler) :
  DynamoDBSchedulerRepository.mapToEntity <$> items = items.
Proof.
  induction items as [|item items IH]; [done|].
  by rewrite fmap_cons, mapToEntity_id, IH.
Qed.

Lemma findById_run (id : string) (w : World) :
  DynamoDBSchedulerRepository.findById env id w
  = (Ok (schedulers w !! id), w).
Proof.
  unfold DynamoDBSchedulerRepository.findById. rewrite dynamo_run.
  destruct (schedulers w !! id) as [item|]; simpl; [|done].
  by rewrite mapToEntity_id.
Qed.

Lemma findAll_run (w : World) :
  DynamoDBSchedulerRepository.findAll env w
  = (Ok (DynamoDBSchedulerRepository.scan w), w).
Proof.
  unfold DynamoDBSchedulerRepository.findAll.
  by rewrite dynamo_run, fmap_mapToEntity.
Qed.

Lemma update_run (id : string) (updates : Scheduler) (w : World) :
  updated_at updates = None ->
  DynamoDBSchedulerRepository.update env id updates w
  = (Ok (DynamoDBSchedulerRepository.apply_updates
           (clock env (clock_reads w)) updates
           (DynamoDBSchedulerRepository.item_at id w)),
     set_schedulers
       (<[id := DynamoDBSchedulerRepository.apply_updates
                  (clock env (clock_reads w)) updates
                  (DynamoDBSchedulerRepository.item_at id w)]>
          (schedulers w))
       (tick_clock w)).
Proof.
  intros Hnone.
  unfold DynamoDBSchedulerRepository.update, bind, new_Date.
  rewrite dynamo_run, Hnone. by rewrite mapToEntity_id.
Qed.

Lemma updateHeartbeat_run (id : string) (w : World) :
  DynamoDBSchedulerRepository.updateHeartbeat env id w
  = (Ok tt,
     set_schedulers
       (<[id := DynamoDBSchedulerRepository.with_heartbeat
                  (clock env (clock_reads w))
                  (DynamoDBSchedulerRepository.item_at id w)]>
          (schedulers w))
       (tick_clock w)).
Proof.
  unfold DynamoDBSchedulerRepository.updateHeartbeat, bind, new_Date.
  by rewrite dynamo_run.
Qed.


End RepositoryFacts.

Lemma item_at_stored (id : string) (w : World) (item : Scheduler) :
  schedulers w !! id = Some item ->
  DynamoDBSchedulerRepository.item_at id w = item.
Proof.
  intros Hitem. unfold DynamoDBSchedulerRepository.item_at.
  by rewrite Hitem.
Qed.

(** A scan returns the stored items and nothing else. *)
Lemma elem_of_scan (w : World) (item : Scheduler) :
  (item ∈ DynamoDBSchedulerRepository.scan w)
  <-> exists id, schedulers w !! id = Some item.
Proof.
  unfold DynamoDBSchedulerRepository.scan. rewrite list_elem_of_fmap. split.
  - intros [[id item'] [-> Hin]]. exists id.
    by apply elem_of_map_to_list in Hin.
  - intros [id Hid]. exists (id, item). split; [done|].
    by apply elem_of_map_to_list.
Qed.

(** The filter of the stale query, read as the specification words it. *)
Lemma stale_filter_spec (now timeoutMinutes : Z) (item : Scheduler) :
  DynamoDBSchedulerRepository.stale_filter (now - timeoutMinutes * 60 * 1000)
    item = true
  <-> status item = Some RUNNING
      /\ exists hb, last_heartbeat item = Some hb
                    /\ (timeoutMinutes * 60 * 1000 < now - hb)%Z.
Proof.
  unfold DynamoDBSchedulerRepository.stale_filter.
  rewrite andb_true_iff, bool_decide_eq_true.
  destruct (last_heartbeat item) as [hb|].
  - rewrite bool_decide_eq_true. split.
    + intros [Hst Hlt]. split; [done|]. exists hb. split; [done|lia].
    + intros [Hst (hb' & [= <-] & Hlt)]. split; [done|lia].
  - split; [intros [_ [=]]|]. by intros [_ (hb & [=] & _)].
Qed.

(** The entity's own test is the heartbeat half of that filter: it does
    not look at the status. *)
Lemma isStale_spec (now timeoutMinutes : Z) (this : Scheduler) :
  isStale now this timeoutMinutes = true
  <-> exists hb, last_heartbeat this = Some hb
                 /\ (timeoutMinutes * 60 * 1000 < now - hb)%Z.
Proof.
  unfold isStale. destruct (last_heartbeat this) as [hb|]; simpl.
  - rewrite bool_decide_eq_true. split; [by exists hb|].
    by intros (hb' & [= <-] & Hlt).
  - split; [done|]. by intros (hb & [=] & _).
Qed.

Lemma stale_filter_isStale (now timeoutMinutes : Z) (item : Scheduler) :
  DynamoDBSchedulerRepository.stale_filter (now - timeoutMinutes * 60 * 1000)
    item
  = isRunning item && isStale now item timeoutMinutes.
Proof.
  apply eq_true_iff_eq.
  rewrite stale_filter_spec, andb_true_iff, isStale_spec.
  unfold isRunning. by rewrite bool_decide_eq_true.
Qed.


(** ** The service, when DynamoDB answers *)

Section ServiceFacts.
Context (env : Env).
Hypothesis dynamo_answers : dynamo_up env = true.

Lemma history_create_run (h : StatusHistory) (sid : string) (ts : Z)
    (w : World) :
  h_scheduler_id h = Some sid ->
  h_timestamp h = Some ts ->
  exists item,
    DynamoDBStatusHistoryRepository.create env h w
    = (Ok item,
       set_status_history (<[(sid, ts) := item]> (status_history w))
         (tick_uuid w))
    /\ item = {| h_id := Some (uuidv4 env (uuids_drawn w));
                 h_scheduler_id := Some sid;
                 h_status := h_status h;
                 h_timestamp := Some ts;
                 h_execution_time_ms := h_execution_time_ms h;
                 h_error_message := h_error_message h;
                 h_metadata := h_metadata h |}.
Proof.
  intros Hsid Hts. eexists. split; [|reflexivity].
  unfold DynamoDBStatusHistoryRepository.create, bind, new_uuid.
  rewrite Hts, dynamo_run by done. simpl. by rewrite Hsid.
Qed.

Lemma sendFailedJobAlert_run (s : Scheduler) (w : World) :
  SlackNotificationService.sendFailedJobAlert env s w
  = if SLACK_ENABLED env then
      (match chat_postMessage env
               (SlackNotificationService.failedJobBlocks env s)
               (SlackNotificationService.failedJobText s) with
       | Some _ => Ok tt
       | None => Throw SlackError
       end,
       log_slack_call
         (PostMessage (SlackNotificationService.failedJobBlocks env s)
            (SlackNotificationService.failedJobText s)) w)
    else (Ok tt, w).
Proof.
  unfold SlackNotificationService.sendFailedJobAlert.
  destruct (SLACK_ENABLED env); [|done]. simpl.
  unfold bind, SlackNotificationService.postMessage.
  by destruct (chat_postMessage env _ _).
Qed.

(** A status report for a stored scheduler: the scheduler and the
    history item are written, then the alert is sent if the reported
    status is [FAILED], and its outcome is the outcome of the call. *)
Lemma updateStatus_run (dto : UpdateStatusDto) (w : World)
    (old : Scheduler) (sid : string) :
  schedulers w !! u_scheduler_id dto = Some old ->
  scheduler_id old = Some sid ->
  SchedulerService.updateStatus env dto w
  = if bool_decide (u_status dto = FAILED) then
      match SlackNotificationService.sendFailedJobAlert env
              (reported env w dto old) (after_report env w dto old sid) with
      | (Ok _, w') => (Ok (reported env w dto old), w')
      | (Throw e, w') => (Throw e, w')
      end
    else (Ok (reported env w dto old), after_report env w dto old sid).
Proof.
  intros Hold Hsid.
  unfold SchedulerService.updateStatus, bind at 1.
  rewrite findById_run, Hold by done.
  unfold bind at 1. unfold new_Date at 1.
  unfold bind at 1. rewrite update_run by done.
  rewrite (item_at_stored _ (tick_clock w) _ Hold).
  change (clock_reads (tick_clock w)) with (S (clock_reads w)).
  fold (reported env w dto old).
  unfold bind at 1. unfold SchedulerService.createStatusHistory, bind at 1.
  edestruct (history_create_run
               (SchedulerService.snapshot (reported env w dto old))
               sid (u_timestamp dto)) as (item & -> & Hitem);
    [done| done |].
  unfold ret at 1. unfold bind at 1.
  unfold SchedulerService.handleFailedJob.
  replace (set_status_history _ _) with (after_report env w dto old sid).
  2:{ unfold after_report, set_status_history, tick_uuid, set_schedulers,
        tick_clock, history_item. simpl. rewrite Hitem. simpl.
      by rewrite Hsid. }
  destruct (bool_decide (u_status dto = FAILED)); [|done].
  by destruct (SlackNotificationService.sendFailedJobAlert env _ _)
    as [[[]|e] w'].
Qed.

Lemma updateStatus_unknown (dto : UpdateStatusDto) (w : World) :
  schedulers w !! u_scheduler_id dto = None ->
  SchedulerService.updateStatus env dto w
  = (Throw (NotFoundException
              ("Scheduler " +:+ u_scheduler_id dto
               +:+ " not found. Please register first.")), w).
Proof.
  intros Hnone. unfold SchedulerService.updateStatus, bind.
  by rewrite findById_run, Hnone.
Qed.

Lemma updateHeartbeat_known (id : string) (w : World) (old : Scheduler) :
  schedulers w !! id = Some old ->
  SchedulerService.updateHeartbeat env id w
  = (Ok tt,
     set_schedulers
       (<[id := DynamoDBSchedulerRepository.with_heartbeat
                  (clock env (clock_reads w)) old]> (schedulers w))
       (tick_clock w)).
Proof.
  intros Hold. unfold SchedulerService.updateHeartbeat, bind.
  rewrite findById_run, Hold by done.
  rewrite updateHeartbeat_run by done.
  by rewrite (item_at_stored _ _ _ Hold).
Qed.

Lemma updateHeartbeat_unknown (id : string) (w : World) :
  schedulers w !! id = None ->
  SchedulerService.updateHeartbeat env id w
  = (Throw (NotFoundException
              ("Scheduler " +:+ id +:+ " not found. Please register first.")),
     w).
Proof.
  intros Hnone. unfold SchedulerService.updateHeartbeat, bind.
  by rewrite findById_run, Hnone.
Qed.

Lemma getScheduler_known (id : string) (w : World) (s : Scheduler) :
  schedulers w !! id = Some s ->
  SchedulerService.getScheduler env id w = (Ok s, w).
Proof.
  intros Hs. unfold SchedulerService.getScheduler, bind.
  by rewrite findById_run, Hs.
Qed.

Lemma getScheduler_unknown (id : string) (w : World) :
  schedulers w !! id = None ->
  SchedulerService.getScheduler env id w
  = (Throw (NotFoundException ("Scheduler " +:+ id +:+ " not found")), w).
Proof.
  intros Hnone. unfold SchedulerService.getScheduler, bind.
  by rewrite findById_run, Hnone.
Qed.


Lemma registerScheduler_known (dto : RegisterSchedulerDto) (w : World)
    (old : Scheduler) :
  schedulers w !! r_scheduler_id dto = Some old ->
  SchedulerService.registerScheduler env dto w
  = (Ok (DynamoDBSchedulerRepository.apply_updates
           (clock env (clock_reads w))
           (SchedulerService.descriptive_updates dto) old),
     set_schedulers
       (<[r_scheduler_id dto :=
            DynamoDBSchedulerRepository.apply_updates
              (clock env (clock_reads w))
              (SchedulerService.descriptive_updates dto) old]>
          (schedulers w))
       (tick_clock w)).
Proof.
  intros Hold. unfold SchedulerService.registerScheduler, bind.
  rewrite findById_run, Hold by done.
  rewrite update_run by done.
  by rewrite (item_at_stored _ _ _ Hold).
Qed.

Lemma registerScheduler_unknown (dto : RegisterSchedulerDto) (w : World) :
  schedulers w !! r_scheduler_id dto = None ->
  let n := clock_reads w in
  let s :=
    SchedulerService.new_scheduler dto (clock env n)
      (clock env (3 + n)) (clock env (3 + n)) in
  SchedulerService.registerScheduler env dto w
  = (Ok s,
     mkWorld (<[r_scheduler_id dto := s]> (schedulers w))
             (status_history w) (currentMessageTs w) (slack_calls w)
             (4 + n) (uuids_drawn w)).
Proof.
  intros Hnone n s. unfold SchedulerService.registerScheduler, bind at 1.
  rewrite findById_run, Hnone by done.
  unfold bind, new_Date, DynamoDBSchedulerRepository.create, bind, new_Date.
  simpl. rewrite dynamo_run by done. simpl. by rewrite Hnone.
Qed.

End ServiceFacts.

(** ** The service, whatever DynamoDB does *)

Lemma dynamo_down {A} (env : Env) (op : M A) (w : World) :
  dynamo_up env = false ->
  dynamo env op w = (Throw (DynamoDBError "ServiceUnavailable"), w).
Proof. intros Hdown. unfold dynamo. by rewrite Hdown. Qed.

(** A stored item that lacks its own key attribute cannot be put in the
    history table: the report fails after the scheduler is written. *)
Lemma updateStatus_keyless (env : Env) (dto : UpdateStatusDto) (w : World)
    (old : Scheduler) :
  dynamo_up env = true ->
  schedulers w !! u_scheduler_id dto = Some old ->
  scheduler_id old = None ->
  exists e w', SchedulerService.updateStatus env dto w = (Throw e, w').
Proof.
  intros Hup Hold Hsid.
  unfold SchedulerService.updateStatus, bind at 1.
  rewrite findById_run, Hold by done.
  unfold bind at 1. unfold new_Date at 1.
  unfold bind at 1. rewrite update_run by done.
  rewrite (item_at_stored _ (tick_clock w) _ Hold).
  unfold bind at 1. unfold SchedulerService.createStatusHistory, bind at 1.
  unfold DynamoDBStatusHistoryRepository.create, bind, new_uuid.
  simpl. rewrite dynamo_run by done. rewrite Hsid. by eexists _, _.
Qed.

(** What a status report that returns has done. *)
Lemma updateStatus_ok_inv (env : Env) (dto : UpdateStatusDto) (w w' : World)
    (s : Scheduler) :
  SchedulerService.updateStatus env dto w = (Ok s, w') ->
  dynamo_up env = true
  /\ exists old sid,
       schedulers w !! u_scheduler_id dto = Some old
       /\ scheduler_id old = Some sid
       /\ s = reported env w dto old
       /\ (w' = after_report env w dto old sid
           \/ exists call,
                u_status dto = FAILED
                /\ w' = log_slack_call call (after_report env w dto old sid)).
Proof.
  intros Hrun. destruct (dynamo_up env) eqn:Hup.
  2:{ unfold SchedulerService.updateStatus, bind,
        DynamoDBSchedulerRepository.findById in Hrun.
      by rewrite dynamo_down in Hrun. }
  split; [done|].
  destruct (schedulers w !! u_scheduler_id dto) as [old|] eqn:Hold.
  2:{ by rewrite updateStatus_unknown in Hrun. }
  destruct (scheduler_id old) as [sid|] eqn:Hsid.
  2:{ destruct (updateStatus_keyless env dto w old) as (e & w1 & Hthrow);
        [done..|]. congruence. }
  exists old, sid. repeat split; [done..| |];
    rewrite (updateStatus_run env Hup dto w old sid) in Hrun by done.
  - destruct (bool_decide (u_status dto = FAILED)); [|congruence].
    destruct (SlackNotificationService.sendFailedJobAlert env _ _)
      as [[[]|e] w1]; congruence.
  - case_bool_decide as Hfailed; [|left; congruence].
    rewrite sendFailedJobAlert_run in Hrun by done.
    destruct (SLACK_ENABLED env); [|left; congruence].
    destruct (chat_postMessage env _ _); [|done].
    right. eexists. split; [done|]. cbv beta iota zeta in Hrun.
    injection Hrun as _ <-. reflexivity.
Qed.

(** ** Status reports *)

(** C2, as the specification words it, fails: a report that leaves out
    [execution_time_ms], [error_message] and [metadata] returns, and the
    stored scheduler keeps the values it had. *)
Lemma updateStatus_keeps_absent_optionals :
  exists s w',
    SchedulerService.updateStatus env_ok running_report (world_with failed_job)
    = (Ok s, w')
    /\ schedulers w' !! "svc-a-eod" = Some s
    /\ u_execution_time_ms running_report = None
    /\ execution_time_ms s = Some 15000%Z
    /\ u_error_message running_report = None
    /\ error_message s = Some "timeout"
    /\ u_metadata running_report = None
    /\ metadata s = Some [("records_processed", "1000")].
Proof. eexists _, _. split; [vm_compute; reflexivity|]. by vm_compute. Qed.

(** C2, amended.  A status report that returns has stored, under the id
    of the report, the scheduler it returns: its [service_name],
    [job_name], [status] and [timestamp] are those of the report; each of
    [execution_time_ms], [error_message] and [metadata] is the one of the
    report if the report has it and the stored one otherwise;
    [last_heartbeat] is the clock as the service read it and [updated_at]
    the clock as the repository read it next. *)
Theorem updateStatus_overwrites (env : Env) (dto : UpdateStatusDto)
    (w w' : World) (s : Scheduler) :
  SchedulerService.updateStatus env dto w = (Ok s, w') ->
  exists old,
    schedulers w !! u_scheduler_id dto = Some old
    /\ schedulers w' !! u_scheduler_id dto = Some s
    /\ service_name s = Some (u_service_name dto)
    /\ job_name s = Some (u_job_name dto)
    /\ status s = Some (u_status dto)
    /\ timestamp s = Some (u_timestamp dto)
    /\ execution_time_ms s
       = match u_execution_time_ms dto with
         | Some ms => Some ms
         | None => execution_time_ms old
         end
    /\ error_message s
       = match u_error_message dto with
         | Some msg => Some msg
         | None => error_message old
         end
    /\ metadata s
       = match u_metadata dto with
         | Some md => Some md
         | None => metadata old
         end
    /\ last_heartbeat s = Some (clock env (clock_reads w))
    /\ updated_at s = Some (clock env (S (clock_reads w))).
Proof.
  intros Hrun.
  destruct (updateStatus_ok_inv env dto w w' s Hrun)
    as (_ & old & sid & Hold & _ & -> & Hw').
  exists old. split; [done|]. split.
  - destruct Hw' as [->|(call & _ & ->)]; simpl; by rewrite lookup_insert_eq.
  - by repeat split.
Qed.

Lemma updateStatus_overwrites_witness :
  exists s w',
    SchedulerService.updateStatus env_ok running_report (world_with failed_job)
    = (Ok s, w')
    /\ status s = Some RUNNING
    /\ last_heartbeat s = Some 1700000000000%Z
    /\ updated_at s = Some 1700000001000%Z.
Proof.
  eassert (Hrun : SchedulerService.updateStatus env_ok running_report
                    (world_with failed_job) = (Ok _, _))
    by (vm_compute; reflexivity).
  eexists _, _. split; [exact Hrun|].
  destruct (updateStatus_overwrites env_ok running_report
              (world_with failed_job) _ _ Hrun)
    as (old & _ & _ & _ & _ & Hst & _ & _ & _ & _ & Hhb & Hupd).
  split; [exact Hst|]. split; [exact Hhb|exact Hupd].
Defined.

(** ** Staleness, on an example *)


(** ** Heartbeats *)

(** C9.  With DynamoDB answering, a heartbeat for a stored scheduler
    returns, and afterwards the table holds under that id the scheduler
    with [last_heartbeat] and [updated_at] set to the clock and every
    other property as it was; the other schedulers, the history, the
    message handle and the requests to Slack are as they were.  For an id
    without a scheduler it throws [NotFoundException] and changes
    nothing. *)
Theorem updateHeartbeat_spec (env : Env) (id : string) (w : World) :
  dynamo_up env = true ->
  (forall old, schedulers w !! id = Some old ->
     exists new w',
       SchedulerService.updateHeartbeat env id w = (Ok tt, w')
       /\ schedulers w' = <[id := new]> (schedulers w)
       /\ last_heartbeat new = Some (clock env (clock_reads w))
       /\ updated_at new = Some (clock env (clock_reads w))
       /\ same_but_liveness old new
       /\ status_history w' = status_history w
       /\ currentMessageTs w' = currentMessageTs w
       /\ slack_calls w' = slack_calls w)
  /\ (schedulers w !! id = None ->
        exists message,
          SchedulerService.updateHeartbeat env id w
          = (Throw (NotFoundException message), w)).
Proof.
  intros Hup. split.
  - intros old Hold. eexists _, _.
    split; [by apply updateHeartbeat_known|].
    by repeat split.
  - intros Hnone. eexists. by apply updateHeartbeat_unknown.
Qed.

Lemma updateHeartbeat_spec_witness :
  dynamo_up env_ok = true
  /\ schedulers (world_with failed_job) !! "svc-a-eod" = Some failed_job
  /\ (exists new w',
        SchedulerService.updateHeartbeat env_ok "svc-a-eod"
          (world_with failed_job) = (Ok tt, w')
        /\ schedulers w' !! "svc-a-eod" = Some new
        /\ last_heartbeat new = Some 1700000000000%Z
        /\ status new = Some FAILED
        /\ error_message new = Some "timeout")
  /\ schedulers empty_world !! "svc-a-eod" = None
  /\ (exists message,
        SchedulerService.updateHeartbeat env_ok "svc-a-eod" empty_world
        = (Throw (NotFoundException message), empty_world)).
Proof.
  split; [reflexivity|]. split; [reflexivity|]. split; [|split].
  - destruct (updateHeartbeat_spec env_ok "svc-a-eod" (world_with failed_job)
                eq_refl) as [Hknown _].
    destruct (Hknown failed_job eq_refl)
      as (new & w' & Hrun & Htable & Hhb & _ & Hsame & _).
    exists new, w'. split; [exact Hrun|]. split.
    + rewrite Htable. apply lookup_insert_eq.
    + split; [exact Hhb|].
      destruct Hsame as (_ & _ & _ & Hst & _ & _ & Hmsg & _).
      split; [exact Hst|exact Hmsg].
  - reflexivity.
  - destruct (updateHeartbeat_spec env_ok "svc-a-eod" empty_world eq_refl)
      as [_ Hunknown].
    exact (Hunknown eq_refl).
Defined.

(** ** The history table *)








(** A report that repeats the timestamp of an earlier report of the same
    scheduler takes the place of the earlier item: the table is keyed by
    scheduler id and timestamp. *)
Lemma repeated_report_replaces :
  let w1 :=
    (SchedulerService.updateStatus env_ok running_report
       (world_with failed_job)).2 in
  let w2 := (SchedulerService.updateStatus env_ok running_report w1).2 in
  size (status_history w1) = 1 /\ size (status_history w2) = 1.
Proof. by vm_compute. Qed.

(** ** Unknown ids *)

(** With DynamoDB answering, a status report, a heartbeat and a lookup
    for an id without a scheduler throw [NotFoundException] and change
    nothing. *)
Lemma unknown_id_not_found (env : Env) (w : World) :
  dynamo_up env = true ->
  (forall dto, schedulers w !! u_scheduler_id dto = None ->
     exists message,
       SchedulerService.updateStatus env dto w
       = (Throw (NotFoundException message), w))
  /\ (forall id, schedulers w !! id = None ->
        exists message,
          SchedulerService.updateHeartbeat env id w
          = (Throw (NotFoundException message), w))
  /\ (forall id, schedulers w !! id = None ->
        exists message,
          SchedulerService.getScheduler env id w
          = (Throw (NotFoundException message), w)).
Proof.
  intros Hup. split; [|split].
  - intros dto Hnone. eexists. by apply updateStatus_unknown.
  - intros id Hnone. eexists. by apply updateHeartbeat_unknown.
  - intros id Hnone. eexists. by apply getScheduler_unknown.
Qed.

(** C4.  The history query does not look the scheduler up: for an id
    without a scheduler (here in the empty world, with DynamoDB
    answering) it returns the empty list, and in no world and for no id
    does it throw [NotFoundException]. *)
Theorem getSchedulerHistory_never_not_found :
  (schedulers empty_world !! "unknown-id" = None
   /\ SchedulerService.getSchedulerHistory env_ok "unknown-id" None empty_world
      = (Ok [], empty_world))
  /\ (forall env id limit w message,
        (SchedulerService.getSchedulerHistory env id limit w).1
        <> Throw (NotFoundException message)).
Proof.
  split; [by vm_compute|].
  intros env id limit w message.
  unfold SchedulerService.getSchedulerHistory,
    DynamoDBStatusHistoryRepository.findBySchedulerId, dynamo.
  destruct (dynamo_up env); [|done]. by destruct (_ <? _)%Z.
Qed.

(** ** Registration *)

(** C5, as the specification words it, fails: registering a stored
    scheduler again also changes its [updated_at]. *)
Lemma registerScheduler_touches_updated_at :
  exists s w',
    SchedulerService.registerScheduler env_ok second_registration
      (world_with failed_job) = (Ok s, w')
    /\ schedulers w' !! "svc-a-eod" = Some s
    /\ updated_at failed_job = Some 1699999000000%Z
    /\ updated_at s = Some 1700000000000%Z.
Proof. eexists _, _. split; [vm_compute; reflexivity|]. by vm_compute. Qed.

(** C5, amended.  With DynamoDB answering, registration returns.  If the
    id has a scheduler, the scheduler stored afterwards has the
    [service_name] and [job_name] of the request, its [owner_email] and
    [alert_user_id] where the request has them and the stored ones
    otherwise, [updated_at] set to the clock, and every other property,
    [status] among them, as it was.  If the id has none, a scheduler is
    stored with status [PENDING], the properties of the request, and the
    clock as [timestamp], [created_at] and [updated_at].  Either way the
    history table is as it was. *)
Theorem registerScheduler_spec (env : Env) (dto : RegisterSchedulerDto)
    (w : World) :
  dynamo_up env = true ->
  (forall old, schedulers w !! r_scheduler_id dto = Some old ->
     exists s w',
       SchedulerService.registerScheduler env dto w = (Ok s, w')
       /\ schedulers w' = <[r_scheduler_id dto := s]> (schedulers w)
       /\ status_history w' = status_history w
       /\ service_name s = Some (r_service_name dto)
       /\ job_name s = Some (r_job_name dto)
       /\ owner_email s
          = match r_owner_email dto with
            | Some email => Some email
            | None => owner_email old
            end
       /\ alert_user_id s
          = match r_alert_user_id dto with
            | Some user => Some user
            | None => alert_user_id old
            end
       /\ updated_at s = Some (clock env (clock_reads w))
       /\ scheduler_id s = scheduler_id old
       /\ status s = status old
       /\ timestamp s = timestamp old
       /\ execution_time_ms s = execution_time_ms old
       /\ error_message s = error_message old
       /\ metadata s = metadata old
       /\ last_heartbeat s = last_heartbeat old
       /\ created_at s = created_at old)
  /\ (schedulers w !! r_scheduler_id dto = None ->
        exists s w',
          SchedulerService.registerScheduler env dto w = (Ok s, w')
          /\ schedulers w' = <[r_scheduler_id dto := s]> (schedulers w)
          /\ status_history w' = status_history w
          /\ s = {| scheduler_id := Some (r_scheduler_id dto);
                    service_name := Some (r_service_name dto);
                    job_name := Some (r_job_name dto);
                    status := Some PENDING;
                    timestamp := Some (clock env (clock_reads w));
                    execution_time_ms := None;
                    error_message := None;
                    metadata := None;
                    last_heartbeat := None;
                    created_at := Some (clock env (3 + clock_reads w));
                    updated_at := Some (clock env (3 + clock_reads w));
                    owner_email := r_owner_email dto;
                    alert_user_id := r_alert_user_id dto |}).
Proof.
  intros Hup. split.
  - intros old Hold. eexists _, _.
    split; [by apply registerScheduler_known|]. by repeat split.
  - intros Hnone. eexists _, _.
    split; [by apply registerScheduler_unknown|]. by repeat split.
Qed.

Lemma registerScheduler_spec_witness :
  dynamo_up env_ok = true
  /\ schedulers (world_with failed_job) !! "svc-a-eod" = Some failed_job
  /\ (exists s w',
        SchedulerService.registerScheduler env_ok second_registration
          (world_with failed_job) = (Ok s, w')
        /\ service_name s = Some "Service A (v2)"
        /\ owner_email s = Some "owner@example.com"
        /\ status s = Some FAILED)
  /\ schedulers empty_world !! "svc-a-eod" = None
  /\ (exists s w',
        SchedulerService.registerScheduler env_ok second_registration
          empty_world = (Ok s, w')
        /\ status s = Some PENDING
        /\ created_at s = Some 1700000003000%Z).
Proof.
  split; [reflexivity|]. split; [reflexivity|]. split; [|split].
  - destruct (registerScheduler_spec env_ok second_registration
                (world_with failed_job) eq_refl) as [Hknown _].
    destruct (Hknown failed_job eq_refl)
      as (s & w' & Hrun & _ & _ & Hname & _ & Hmail & _ & _ & _ & Hst & _).
    exists s, w'. split; [exact Hrun|]. split; [exact Hname|].
    split; [exact Hmail|exact Hst].
  - reflexivity.
  - destruct (registerScheduler_spec env_ok second_registration empty_world
                eq_refl) as [_ Hunknown].
    destruct (Hunknown eq_refl) as (s & w' & Hrun & _ & _ & Hs).
    exists s, w'. split; [exact Hrun|]. rewrite Hs. split; reflexivity.
Defined.

(** ** Invariants of the worlds the system can be in *)

Section Preservation.
Context (P : World -> Prop).

Lemma preserves_ret {A} (a : A) : preserves P (ret a).
Proof. by intros w Hw. Qed.

Lemma preserves_throw {A} (e : Exn) : preserves P (@throw A e).
Proof. by intros w Hw. Qed.

Lemma preserves_bind {A B} (m : M A) (k : A -> M B) :
  preserves P m -> (forall a, preserves P (k a)) -> preserves P (bind m k).
Proof.
  intros Hm Hk w Hw. unfold bind. specialize (Hm w Hw).
  destruct (m w) as [[a|e] w1]; simpl in *; [by apply Hk|done].
Qed.

Lemma preserves_try_catch {A} (m : M A) (h : Exn -> M A) :
  preserves P m -> (forall e, preserves P (h e)) ->
  preserves P (try_catch m h).
Proof.
  intros Hm Hh w Hw. unfold try_catch. specialize (Hm w Hw).
  destruct (m w) as [[a|e] w1]; simpl in *; [done|by apply Hh].
Qed.

Lemma preserves_for_each {A} (f : A -> M unit) (l : list A) :
  (forall a, preserves P (f a)) -> preserves P (for_each f l).
Proof.
  intros Hf. induction l as [|a l IH]; simpl.
  - apply preserves_ret.
  - apply preserves_bind; [apply Hf|by intros _].
Qed.

Lemma preserves_dynamo {A} (env : Env) (op : M A) :
  preserves P op -> preserves P (dynamo env op).
Proof.
  intros Hop. unfold dynamo. destruct (dynamo_up env); [done|].
  apply preserves_throw.
Qed.

(** A computation that leaves the table and the handle alone keeps
    every such property. *)
Lemma preserves_frame {A} (m : M A) :
  table_and_handle_only P ->
  (forall w, schedulers (m w).2 = schedulers w
             /\ currentMessageTs (m w).2 = currentMessageTs w) ->
  preserves P m.
Proof. intros HP Hm w Hw. destruct (Hm w). by apply (HP w). Qed.

End Preservation.

(** Splits a computation along its binds, handlers, loops and case
    distinctions, down to the requests it makes. *)
Ltac split_computation :=
  repeat match goal with
    | |- preserves _ (ret _) => apply preserves_ret
    | |- preserves _ (throw _) => apply preserves_throw
    | |- preserves _ (bind _ _) => apply preserves_bind; [|intros ?]
    | |- preserves _ (try_catch _ _) =>
        apply preserves_try_catch; [|intros ?]
    | |- preserves _ (for_each _ _) => apply preserves_for_each; intros ?
    | |- preserves _ (dynamo _ _) => apply preserves_dynamo
    | |- preserves _ (match ?x with _ => _ end) => destruct x
    end.

(** Closes the goal for a request that leaves the table and the handle
    alone. *)
Ltac frame_request :=
  apply preserves_frame; [assumption|];
  let w := fresh "w" in
  intros w; simpl; repeat (case_match; simpl); done.

Section KeepsTableAndHandleOnly.
Context (env : Env) (P : World -> Prop).
Hypothesis P_local : table_and_handle_only P.

Lemma new_Date_preserves : preserves P (new_Date env).
Proof. frame_request. Qed.

Lemma new_uuid_preserves : preserves P (new_uuid env).
Proof. frame_request. Qed.

Lemma findById_preserves (id : string) :
  preserves P (DynamoDBSchedulerRepository.findById env id).
Proof.
  unfold DynamoDBSchedulerRepository.findById. split_computation.
  frame_request.
Qed.

Lemma findAll_preserves :
  preserves P (DynamoDBSchedulerRepository.findAll env).
Proof.
  unfold DynamoDBSchedulerRepository.findAll. split_computation.
  frame_request.
Qed.

Lemma findStaleSchedulers_preserves (timeoutMinutes : Z) :
  preserves P
    (DynamoDBSchedulerRepository.findStaleSchedulers env timeoutMinutes).
Proof.
  unfold DynamoDBSchedulerRepository.findStaleSchedulers.
  split_computation; [apply new_Date_preserves|frame_request].
Qed.

Lemma history_create_preserves (h : StatusHistory) :
  preserves P (DynamoDBStatusHistoryRepository.create env h).
Proof.
  unfold DynamoDBStatusHistoryRepository.create.
  split_computation; [apply new_uuid_preserves|frame_request].
Qed.

Lemma findBySchedulerId_preserves (id : string) (limit : option Z) :
  preserves P (DynamoDBStatusHistoryRepository.findBySchedulerId env id limit).
Proof.
  unfold DynamoDBStatusHistoryRepository.findBySchedulerId.
  split_computation. frame_request.
Qed.

Lemma postMessage_preserves (blocks : list Block) (text : string) :
  preserves P (SlackNotificationService.postMessage env blocks text).
Proof. unfold SlackNotificationService.postMessage. frame_request. Qed.

Lemma chatUpdate_preserves (ts : string) (blocks : list Block)
    (text : string) :
  preserves P (SlackNotificationService.chatUpdate env ts blocks text).
Proof. unfold SlackNotificationService.chatUpdate. frame_request. Qed.

Lemma sendFailedJobAlert_preserves (s : Scheduler) :
  preserves P (SlackNotificationService.sendFailedJobAlert env s).
Proof.
  unfold SlackNotificationService.sendFailedJobAlert.
  destruct (negb _); split_computation. apply postMessage_preserves.
Qed.

Lemma sendTimeoutWarning_preserves (s : Scheduler) :
  preserves P (SlackNotificationService.sendTimeoutWarning env s).
Proof.
  unfold SlackNotificationService.sendTimeoutWarning.
  destruct (negb _); split_computation. apply postMessage_preserves.
Qed.

Lemma sendAllClearSummary_preserves (l : list Scheduler) :
  preserves P (SlackNotificationService.sendAllClearSummary env l).
Proof.
  unfold SlackNotificationService.sendAllClearSummary.
  destruct (negb _); split_computation;
    [apply new_Date_preserves|apply postMessage_preserves].
Qed.

Lemma sendStatusTable_preserves (l : list Scheduler) (ts : Z) :
  preserves P (SlackNotificationService.sendStatusTable env l ts).
Proof.
  unfold SlackNotificationService.sendStatusTable.
  destruct (negb _); split_computation. apply postMessage_preserves.
Qed.

Lemma updateStatusTable_preserves (ts : string) (l : list Scheduler)
    (now : Z) :
  preserves P (SlackNotificationService.updateStatusTable env ts l now).
Proof.
  unfold SlackNotificationService.updateStatusTable.
  destruct (negb _); split_computation. apply chatUpdate_preserves.
Qed.

End KeepsTableAndHandleOnly.

(** The operations, for a property that the three writes of the
    scheduler repository keep. *)
Section OperationsPreserve.
Context (env : Env) (P : World -> Prop).
Hypothesis P_local : table_and_handle_only P.
Hypothesis P_create :
  forall s, preserves P (DynamoDBSchedulerRepository.create env s).
Hypothesis P_update :
  forall id updates,
    preserves P (DynamoDBSchedulerRepository.update env id updates).
Hypothesis P_updateHeartbeat :
  forall id, preserves P (DynamoDBSchedulerRepository.updateHeartbeat env id).

Lemma registerScheduler_preserves (dto : RegisterSchedulerDto) :
  preserves P (SchedulerService.registerScheduler env dto).
Proof.
  unfold SchedulerService.registerScheduler.
  split_computation;
    auto using findById_preserves, new_Date_preserves.
Qed.

Lemma updateStatus_preserves (dto : UpdateStatusDto) :
  preserves P (SchedulerService.updateStatus env dto).
Proof.
  unfold SchedulerService.updateStatus, SchedulerService.createStatusHistory,
    SchedulerService.handleFailedJob.
  split_computation;
    auto using findById_preserves, new_Date_preserves,
      history_create_preserves, sendFailedJobAlert_preserves.
Qed.

Lemma updateHeartbeat_preserves (id : string) :
  preserves P (SchedulerService.updateHeartbeat env id).
Proof.
  unfold SchedulerService.updateHeartbeat.
  split_computation; auto using findById_preserves.
Qed.

Lemma getScheduler_preserves (id : string) :
  preserves P (SchedulerService.getScheduler env id).
Proof.
  unfold SchedulerService.getScheduler.
  split_computation; auto using findById_preserves.
Qed.

Lemma getSchedulerHistory_preserves (id : string) (limit : option Z) :
  preserves P (SchedulerService.getSchedulerHistory env id limit).
Proof. by apply findBySchedulerId_preserves. Qed.

Lemma service_checkStaleSchedulers_preserves :
  preserves P (SchedulerService.checkStaleSchedulers env).
Proof.
  unfold SchedulerService.checkStaleSchedulers.
  split_computation;
    auto using findStaleSchedulers_preserves, sendTimeoutWarning_preserves.
Qed.

Lemma checkAllClear_preserves :
  preserves P (SchedulerService.checkAllClear env).
Proof.
  unfold SchedulerService.checkAllClear.
  split_computation;
    auto using findAll_preserves, sendAllClearSummary_preserves.
Qed.

Lemma worker_checkStaleSchedulers_preserves :
  preserves P (SlackWorkerService.checkStaleSchedulers env).
Proof.
  unfold SlackWorkerService.checkStaleSchedulers.
  split_computation;
    auto using new_Date_preserves, findStaleSchedulers_preserves,
      sendTimeoutWarning_preserves.
Qed.

Hypothesis P_write :
  forall ts, preserves P (SlackWorkerService.write_currentMessageTs ts).

Lemma read_currentMessageTs_preserves :
  preserves P SlackWorkerService.read_currentMessageTs.
Proof. by intros w Hw. Qed.

Lemma sendInitialStatusTable_preserves :
  preserves P (SlackWorkerService.sendInitialStatusTable env).
Proof.
  unfold SlackWorkerService.sendInitialStatusTable.
  split_computation;
    auto using findAll_preserves, new_Date_preserves,
      sendStatusTable_preserves.
Qed.

Lemma worker_updateStatusTable_preserves :
  preserves P (SlackWorkerService.updateStatusTable env).
Proof.
  unfold SlackWorkerService.updateStatusTable.
  split_computation;
    auto using findAll_preserves, new_Date_preserves,
      read_currentMessageTs_preserves, updateStatusTable_preserves,
      sendInitialStatusTable_preserves.
Qed.

Lemma sendFinalStatusSummary_preserves :
  preserves P (SlackWorkerService.sendFinalStatusSummary env).
Proof.
  unfold SlackWorkerService.sendFinalStatusSummary.
  split_computation;
    auto using findAll_preserves, new_Date_preserves,
      read_currentMessageTs_preserves, updateStatusTable_preserves,
      sendAllClearSummary_preserves.
Qed.

(** Every operation keeps [P]. *)
Lemma run_preserves (op : Operation) (w : World) : P w -> P (run env op w).
Proof.
  destruct op; simpl.
  - apply registerScheduler_preserves.
  - apply updateStatus_preserves.
  - apply updateHeartbeat_preserves.
  - apply getScheduler_preserves.
  - by apply findAll_preserves.
  - apply getSchedulerHistory_preserves.
  - apply service_checkStaleSchedulers_preserves.
  - apply checkAllClear_preserves.
  - apply sendInitialStatusTable_preserves.
  - apply worker_updateStatusTable_preserves.
  - apply sendFinalStatusSummary_preserves.
  - apply worker_checkStaleSchedulers_preserves.
Qed.

End OperationsPreserve.

(** *** The keys of the scheduler table *)

Lemma keys_consistent_local : table_and_handle_only keys_consistent.
Proof. intros w w' Htable _. unfold keys_consistent. by rewrite Htable. Qed.

Lemma item_at_key (id : string) (w : World) :
  keys_consistent w ->
  scheduler_id (DynamoDBSchedulerRepository.item_at id w) = Some id.
Proof.
  intros Hw. unfold DynamoDBSchedulerRepository.item_at.
  destruct (schedulers w !! id) as [item|] eqn:Hitem; [|done].
  by apply (Hw id item).
Qed.

Lemma create_keeps_keys (env : Env) (s : Scheduler) :
  preserves keys_consistent (DynamoDBSchedulerRepository.create env s).
Proof.
  unfold DynamoDBSchedulerRepository.create.
  split_computation;
    [apply new_Date_preserves, keys_consistent_local|].
  intros w Hw. simpl. destruct (scheduler_id s) as [id|] eqn:Hid; [|done].
  destruct (schedulers w !! id); [done|]. simpl.
  by apply map_Forall_insert_2.
Qed.

Lemma update_keeps_keys (env : Env) (id : string) (updates : Scheduler) :
  preserves keys_consistent
    (DynamoDBSchedulerRepository.update env id updates).
Proof.
  unfold DynamoDBSchedulerRepository.update.
  split_computation;
    [apply new_Date_preserves, keys_consistent_local|].
  intros w Hw. destruct (updated_at updates); [done|]. simpl.
  apply map_Forall_insert_2; [|done]. by apply item_at_key.
Qed.

Lemma updateHeartbeat_keeps_keys (env : Env) (id : string) :
  preserves keys_consistent
    (DynamoDBSchedulerRepository.updateHeartbeat env id).
Proof.
  unfold DynamoDBSchedulerRepository.updateHeartbeat.
  split_computation;
    [apply new_Date_preserves, keys_consistent_local|].
  intros w Hw. simpl.
  apply map_Forall_insert_2; [|done]. by apply item_at_key.
Qed.

(** In every world the system can be in, the items carry their keys. *)
Lemma reachable_keys_consistent (enabled : bool) (w : World) :
  reachable enabled w -> keys_consistent w.
Proof.
  induction 1 as [|env op w _ _ IH].
  - apply map_Forall_empty.
  - apply run_preserves; try done.
    + apply keys_consistent_local.
    + apply create_keeps_keys.
    + apply update_keeps_keys.
    + apply updateHeartbeat_keeps_keys.
    + by intros ts w1 Hw1.
Qed.


(** *** The handle when Slack is disabled *)

Lemma handle_is_local (h : option string) : table_and_handle_only (handle_is h).
Proof. intros w w' _ Hhandle. unfold handle_is. by rewrite Hhandle. Qed.

(** With Slack disabled no operation touches the handle. *)
Lemma run_disabled_keeps_handle (env : Env) (op : Operation) (w : World) :
  SLACK_ENABLED env = false ->
  currentMessageTs (run env op w) = currentMessageTs w.
Proof.
  intros Hoff.
  assert (Hcreate : forall s,
    preserves (handle_is (currentMessageTs w))
      (DynamoDBSchedulerRepository.create env s)).
  { intros s. unfold DynamoDBSchedulerRepository.create.
    split_computation;
      [apply new_Date_preserves, handle_is_local|].
    intros w1 Hw1. simpl. by repeat case_match. }
  assert (Hupdate : forall id updates,
    preserves (handle_is (currentMessageTs w))
      (DynamoDBSchedulerRepository.update env id updates)).
  { intros id updates. unfold DynamoDBSchedulerRepository.update.
    split_computation;
      [apply new_Date_preserves, handle_is_local|].
    intros w1 Hw1. simpl. by repeat case_match. }
  assert (Hheartbeat : forall id,
    preserves (handle_is (currentMessageTs w))
      (DynamoDBSchedulerRepository.updateHeartbeat env id)).
  { intros id. unfold DynamoDBSchedulerRepository.updateHeartbeat.
    split_computation;
      [apply new_Date_preserves, handle_is_local|].
    by intros w1 Hw1. }
  pose proof (handle_is_local (currentMessageTs w)) as Hlocal.
  change (handle_is (currentMessageTs w) (run env op w)).
  destruct op; simpl.
  - by apply registerScheduler_preserves.
  - by apply updateStatus_preserves.
  - by apply updateHeartbeat_preserves.
  - by apply getScheduler_preserves.
  - by apply findAll_preserves.
  - by apply getSchedulerHistory_preserves.
  - by apply service_checkStaleSchedulers_preserves.
  - by apply checkAllClear_preserves.
  - unfold SlackWorkerService.sendInitialStatusTable,
      SlackNotificationService.isEnabled. by rewrite Hoff.
  - unfold SlackWorkerService.updateStatusTable,
      SlackNotificationService.isEnabled. by rewrite Hoff.
  - unfold SlackWorkerService.sendFinalStatusSummary,
      SlackNotificationService.isEnabled. by rewrite Hoff.
  - by apply worker_checkStaleSchedulers_preserves.
Qed.

(** So with Slack disabled no handle is ever held. *)
Lemma reachable_disabled_no_handle (w : World) :
  reachable false w -> currentMessageTs w = None.
Proof.
  induction 1 as [|env op w Hoff _ IH]; [done|].
  by rewrite run_disabled_keeps_handle.
Qed.

(** ** The alert of a failed report *)

(** C8, as the specification words it, fails: when Slack refuses the
    alert, the report throws the error of the Slack call. *)
Lemma updateStatus_propagates_alert_failure :
  exists w',
    SchedulerService.updateStatus env_slack_down failed_report
      (world_with failed_job) = (Throw SlackError, w').
Proof. eexists. vm_compute. reflexivity. Qed.

(** The world of one stored scheduler is consistent if the scheduler
    carries an id. *)
Lemma world_with_keys (s : Scheduler) (id : string) :
  scheduler_id s = Some id -> keys_consistent (world_with s).
Proof.
  intros Hid. unfold keys_consistent, world_with. simpl. rewrite Hid. simpl.
  by apply map_Forall_singleton.
Qed.

(** C8, amended.  With DynamoDB answering, a report of status [FAILED]
    for a stored scheduler writes the scheduler and its history item and
    then sends the alert; it returns the updated scheduler when Slack is
    disabled or accepts the alert, and throws the error of the Slack call
    when Slack refuses it. *)
Theorem updateStatus_failed_alert_outcome (env : Env) (dto : UpdateStatusDto)
    (w : World) (old : Scheduler) :
  dynamo_up env = true ->
  keys_consistent w ->
  u_status dto = FAILED ->
  schedulers w !! u_scheduler_id dto = Some old ->
  let s := reported env w dto old in
  exists w',
    SchedulerService.updateStatus env dto w
    = (if SLACK_ENABLED env
       then match chat_postMessage env
                    (SlackNotificationService.failedJobBlocks env s)
                    (SlackNotificationService.failedJobText s) with
            | Some _ => Ok s
            | None => Throw SlackError
            end
       else Ok s,
       w')
    /\ schedulers w' !! u_scheduler_id dto = Some s
    /\ status_history w'
       = <[(u_scheduler_id dto, u_timestamp dto) := history_item env w s]>
           (status_history w).
Proof.
  intros Hup Hkeys Hfailed Hold s.
  pose proof (Hkeys _ _ Hold) as Hsid.
  rewrite (updateStatus_run env Hup dto w old _ Hold Hsid).
  rewrite bool_decide_eq_true_2 by done.
  rewrite sendFailedJobAlert_run by done. fold s.
  destruct (SLACK_ENABLED env).
  - eexists. split.
    + by destruct (chat_postMessage env _ _).
    + simpl. by rewrite lookup_insert_eq.
  - eexists. split; [done|]. simpl. by rewrite lookup_insert_eq.
Qed.

Lemma updateStatus_failed_alert_outcome_witness :
  dynamo_up env_slack_down = true
  /\ keys_consistent (world_with failed_job)
  /\ u_status failed_report = FAILED
  /\ schedulers (world_with failed_job) !! u_scheduler_id failed_report
     = Some failed_job
  /\ exists w',
       SchedulerService.updateStatus env_slack_down failed_report
         (world_with failed_job) = (Throw SlackError, w')
       /\ (exists s, schedulers w' !! "svc-a-eod" = Some s
                     /\ status s = Some FAILED)
       /\ size (status_history w') = 1.
Proof.
  assert (Hkeys : keys_consistent (world_with failed_job))
    by (by apply (world_with_keys failed_job "svc-a-eod")).
  split; [reflexivity|]. split; [exact Hkeys|]. split; [reflexivity|].
  split; [reflexivity|].
  destruct (updateStatus_failed_alert_outcome env_slack_down failed_report
              (world_with failed_job) failed_job
              eq_refl Hkeys eq_refl eq_refl) as (w' & Hrun & Hs & Hhist).
  exists w'. split; [exact Hrun|]. split.
  - eexists. split; [exact Hs|reflexivity].
  - rewrite Hhist. reflexivity.
Defined.

(** ** The status table *)

(** The blocks of one scheduler: its section, and then its execution
    time unless the property is absent or zero. *)
Lemma scheduler_blocks_annotation (env : Env) (s : Scheduler) :
  exists section,
    SlackNotificationService.scheduler_blocks env s
    = SectionFields section
      :: match execution_time_ms s with
         | Some ms =>
             if (ms =? 0)%Z then []
             else [ContextBlock
                     ["Execution time: "
                      +:+ SlackNotificationService.formatExecutionTime env ms]]
         | None => []
         end.
Proof.
  eexists. unfold SlackNotificationService.scheduler_blocks, truthy_number.
  destruct (execution_time_ms s) as [ms|]; [|done].
  by destruct (ms =? 0)%Z.
Qed.

(** A report of zero milliseconds is stored as such: the repository
    leaves out [undefined] properties only. *)
Lemma zero_execution_time_is_stored :
  exists s w',
    SchedulerService.updateStatus env_ok (completed_report "a" 0)
      (run env_ok (Register (register_job "a")) empty_world) = (Ok s, w')
    /\ schedulers w' !! "a" = Some s
    /\ execution_time_ms s = Some 0%Z.
Proof. eexists _, _. split; [vm_compute; reflexivity|]. by vm_compute. Qed.

(** C10.  The status table of a scheduler whose [execution_time_ms] is
    present and zero has no execution-time block: after the summary come
    the section of the scheduler and at once the closing divider and the
    legend.  In general a scheduler contributes an execution-time block
    if and only if its [execution_time_ms] is present and not zero. *)
Theorem zero_execution_time_not_annotated (env : Env) (ts : Z) :
  execution_time_ms instant_job = Some 0%Z
  /\ SlackNotificationService.buildStatusTableBlocks env [instant_job] ts
     = [ Header ("📊 EOD Process Status - " +:+ dayjs_format env ts);
         Divider;
         SectionFields
           ["*Pending:* 0"; "*Running:* 0"; "*Completed:* 1"; "*Failed:* 0"];
         Divider;
         SectionFields
           [ "*Service:*" +:+ LF +:+ "Service B";
             "*Job:*" +:+ LF +:+ "No-op";
             "*Status:*" +:+ LF +:+ "✅ completed";
             "*Updated:*" +:+ LF +:+ dayjs_format env 1699999000000 ];
         Divider;
         SlackNotificationService.legend ]
  /\ (forall s : Scheduler,
        (exists text,
           ContextBlock [text] ∈ SlackNotificationService.scheduler_blocks env s)
        <-> exists ms, execution_time_ms s = Some ms /\ ms <> 0%Z).
Proof.
  split; [done|]. split; [done|].
  intros s. destruct (scheduler_blocks_annotation env s) as [section ->].
  destruct (execution_time_ms s) as [ms|].
  - destruct (Z.eqb_spec ms 0) as [->|Hms].
    + split.
      * intros [text Hin]. apply list_elem_of_singleton in Hin. done.
      * by intros (ms & [= <-] & Hms).
    + split; [by exists ms|]. intros _. eexists.
      apply list_elem_of_further, list_elem_of_here.
  - split.
    + intros [text Hin]. apply list_elem_of_singleton in Hin. done.
    + by intros (ms & [=] & _).
Qed.

(** ** The close of the window *)


(** Closes a goal that asks for the world a run ends in and for facts
    about that world. *)
Ltac close_run :=
  eexists; split; [reflexivity|]; simpl;
  rewrite ?app_nil_r, <- ?app_assoc; by repeat split.

(** The close of the window, with Slack enabled and DynamoDB answering:
    the final edit is requested if a message is held; if Slack accepts
    it and the all-clear condition holds, the summary is posted; and the
    handle is cleared if no request was refused. *)
Lemma sendFinalStatusSummary_run (env : Env) (w : World) :
  SLACK_ENABLED env = true ->
  dynamo_up env = true ->
  exists w',
    SlackWorkerService.sendFinalStatusSummary env w = (Ok tt, w')
    /\ schedulers w' = schedulers w
    /\ status_history w' = status_history w
    /\ slack_calls w'
       = slack_calls w ++ final_edit env w
         ++ (if final_edit_ok env w
                && all_clear (DynamoDBSchedulerRepository.scan w)
             then [PostMessage (all_clear_blocks env w)
                     SlackNotificationService.allClearText]
             else [])
    /\ currentMessageTs w'
       = if final_edit_ok env w
            && (negb (all_clear (DynamoDBSchedulerRepository.scan w))
                || all_clear_ok env w)
         then None
         else currentMessageTs w.
Proof.
  intros Hen Hup.
  unfold SlackWorkerService.sendFinalStatusSummary,
    SlackNotificationService.isEnabled.
  rewrite Hen. simpl. unfold try_catch, bind at 1.
  rewrite findAll_run by done.
  unfold bind at 1. unfold SlackWorkerService.read_currentMessageTs at 1.
  unfold all_clear_ok, all_clear_blocks, final_edit_ok, final_edit.
  fold (all_clear (DynamoDBSchedulerRepository.scan w)).
  unfold bind at 1.
  destruct (SlackWorkerService.held (currentMessageTs w)) as [ts|].
  - unfold bind at 1. unfold new_Date at 1.
    unfold SlackNotificationService.updateStatusTable,
      SlackNotificationService.chatUpdate.
    rewrite Hen. simpl.
    destruct (chat_update env ts _ _); simpl; [|close_run].
    unfold bind at 1.
    destruct (all_clear (DynamoDBSchedulerRepository.scan w)); simpl;
      [|close_run].
    unfold SlackNotificationService.sendAllClearSummary. rewrite Hen. simpl.
    unfold bind, new_Date, SlackNotificationService.postMessage. simpl.
    destruct (chat_postMessage env _ _) as [posted|] eqn:Hpost; simpl.
    + close_run.
    + close_run.
  - unfold ret at 1. simpl. unfold bind at 1.
    destruct (all_clear (DynamoDBSchedulerRepository.scan w)); simpl;
      [|close_run].
    unfold SlackNotificationService.sendAllClearSummary. rewrite Hen. simpl.
    unfold bind, new_Date, SlackNotificationService.postMessage. simpl.
    destruct (chat_postMessage env _ _) as [posted|] eqn:Hpost; simpl.
    + close_run.
    + close_run.
Qed.




Lemma all_done_reachable : reachable true all_done.
Proof.
  unfold all_done, both_completed, both_registered.
  repeat (apply reachable_step; [reflexivity|]). apply reachable_start.
Qed.

Lemma all_done_holds_a_message :
  currentMessageTs all_done = Some "1700000000.000100"
  /\ all_clear (DynamoDBSchedulerRepository.scan all_done) = true.
Proof. by vm_compute. Qed.


(** The handle is cleared when no request of the close is refused. *)
Lemma sendFinalStatusSummary_clears_handle (env : Env) (w : World) :
  SLACK_ENABLED env = true ->
  dynamo_up env = true ->
  final_edit_ok env w = true ->
  (all_clear (DynamoDBSchedulerRepository.scan w) = true ->
   all_clear_ok env w = true) ->
  currentMessageTs (SlackWorkerService.sendFinalStatusSummary env w).2 = None.
Proof.
  intros Hen Hup Hedit Hpost.
  destruct (sendFinalStatusSummary_run env w Hen Hup)
    as (w' & -> & _ & _ & _ & Hhandle).
  simpl. rewrite Hhandle, Hedit. simpl.
  destruct (all_clear (DynamoDBSchedulerRepository.scan w)); [|done].
  by rewrite Hpost.
Qed.

(** With Slack disabled the close does nothing. *)
Lemma sendFinalStatusSummary_disabled (env : Env) (w : World) :
  SLACK_ENABLED env = false ->
  SlackWorkerService.sendFinalStatusSummary env w = (Ok tt, w).
Proof.
  intros Hoff.
  unfold SlackWorkerService.sendFinalStatusSummary,
    SlackNotificationService.isEnabled.
  by rewrite Hoff.
Qed.

(** C6.  In the world [all_done], which the system reaches with a
    message held, the close of the window leaves the handle held when
    one of its requests fails: when Slack refuses the final edit, and
    when DynamoDB does not return the schedulers.  The hourly refresh,
    for its part, drops the handle when Slack refuses its edit. *)
Theorem sendFinalStatusSummary_keeps_handle_on_failure :
  reachable true all_done
  /\ currentMessageTs all_done = Some "1700000000.000100"
  /\ (exists w',
        SlackWorkerService.sendFinalStatusSummary env_slack_down all_done
        = (Ok tt, w')
        /\ currentMessageTs w' = Some "1700000000.000100")
  /\ (exists w',
        SlackWorkerService.sendFinalStatusSummary env_dynamo_down all_done
        = (Ok tt, w')
        /\ currentMessageTs w' = Some "1700000000.000100")
  /\ (exists w',
        SlackWorkerService.updateStatusTable env_slack_down all_done
        = (Ok tt, w')
        /\ currentMessageTs w' = None).
Proof.
  split; [apply all_done_reachable|].
  split; [reflexivity|]. split; [|split].
  - eexists. split; [vm_compute; reflexivity|]. reflexivity.
  - eexists. split; [vm_compute; reflexivity|]. reflexivity.
  - eexists. split; [vm_compute; reflexivity|]. reflexivity.
Qed.

(** * Further properties of the code *)

(** ** The scheduler repository *)

(** X1.  [create] and then [findById]: with DynamoDB answering, creating
    a scheduler under an id that is not stored returns the entity with
    the moment of the call as its dates of creation and of update;
    [findById] on that id then returns that entity, and the other
    schedulers and the history are as they were. *)
Theorem create_then_findById (env : Env) (s : Scheduler) (id : string)
    (ts : Z) (w : World) :
  dynamo_up env = true ->
  scheduler_id s = Some id ->
  timestamp s = Some ts ->
  schedulers w !! id = None ->
  let stored := stamped (clock env (clock_reads w)) s in
  exists w',
    DynamoDBSchedulerRepository.create env s w = (Ok stored, w')
    /\ DynamoDBSchedulerRepository.findById env id w' = (Ok (Some stored), w')
    /\ (forall id', id' <> id -> schedulers w' !! id' = schedulers w !! id')
    /\ status_history w' = status_history w.
Proof.
  intros Hup Hid Hts Hnone stored. eexists.
  split; [|split; [|split]].
  - unfold DynamoDBSchedulerRepository.create, bind, new_Date.
    rewrite Hts, dynamo_run by done. simpl. rewrite Hid. simpl.
    rewrite Hnone. unfold ret. rewrite mapToEntity_id.
    unfold stored, stamped. rewrite Hts, Hid. reflexivity.
  - rewrite findById_run by done. simpl. rewrite lookup_insert_eq.
    unfold stored, stamped. by rewrite Hts, Hid.
  - intros id' Hne. simpl. by rewrite lookup_insert_ne.
  - done.
Qed.

Lemma create_then_findById_witness :
  exists w',
    DynamoDBSchedulerRepository.create env_ok failed_job empty_world
    = (Ok (stamped 1700000000000 failed_job), w')
    /\ DynamoDBSchedulerRepository.findById env_ok "svc-a-eod" w'
       = (Ok (Some (stamped 1700000000000 failed_job)), w').
Proof.
  destruct (create_then_findById env_ok failed_job "svc-a-eod" 1699999000000
              empty_world eq_refl eq_refl eq_refl eq_refl)
    as (w' & Hcreate & Hfind & _).
  exists w'. split; [exact Hcreate|exact Hfind].
Defined.

(** X2.  [create] under an id that is stored: the conditional put is
    refused with [ConditionalCheckFailedException], and nothing but the
    clock has moved; the stored scheduler is not overwritten. *)
Theorem create_refuses_stored_id (env : Env) (s old : Scheduler)
    (id : string) (ts : Z) (w : World) :
  dynamo_up env = true ->
  scheduler_id s = Some id ->
  timestamp s = Some ts ->
  schedulers w !! id = Some old ->
  DynamoDBSchedulerRepository.create env s w
  = (Throw (DynamoDBError "ConditionalCheckFailedException"), tick_clock w).
Proof.
  intros Hup Hid Hts Hold.
  unfold DynamoDBSchedulerRepository.create, bind, new_Date.
  rewrite Hts, dynamo_run by done. simpl. by rewrite Hid, Hold.
Qed.

Lemma create_refuses_stored_id_witness :
  DynamoDBSchedulerRepository.create env_ok failed_job (world_with failed_job)
  = (Throw (DynamoDBError "ConditionalCheckFailedException"),
     tick_clock (world_with failed_job)).
Proof.
  apply (create_refuses_stored_id env_ok failed_job failed_job "svc-a-eod"
           1699999000000); reflexivity.
Defined.

(** X3.  [delete] and then [findById]: with DynamoDB answering, [delete]
    returns whether the id is stored or not, [findById] on that id then
    finds nothing, and the other schedulers and the history are as they
    were. *)
Theorem delete_then_findById (env : Env) (id : string) (w : World) :
  dynamo_up env = true ->
  exists w',
    DynamoDBSchedulerRepository.delete env id w = (Ok tt, w')
    /\ DynamoDBSchedulerRepository.findById env id w' = (Ok None, w')
    /\ (forall id', id' <> id -> schedulers w' !! id' = schedulers w !! id')
    /\ status_history w' = status_history w.
Proof.
  intros Hup. eexists. split; [|split; [|split]].
  - unfold DynamoDBSchedulerRepository.delete. by rewrite dynamo_run.
  - rewrite findById_run by done. simpl. by rewrite lookup_delete_eq.
  - intros id' Hne. simpl. by rewrite lookup_delete_ne.
  - done.
Qed.

Lemma delete_then_findById_witness :
  exists w',
    DynamoDBSchedulerRepository.delete env_ok "svc-a-eod"
      (world_with failed_job) = (Ok tt, w')
    /\ DynamoDBSchedulerRepository.findById env_ok "svc-a-eod" w'
       = (Ok None, w').
Proof.
  destruct (delete_then_findById env_ok "svc-a-eod" (world_with failed_job)
              eq_refl) as (w' & Hdelete & Hfind & _).
  exists w'. split; [exact Hdelete|exact Hfind].
Defined.

(** X4.  The repository's [updateHeartbeat] does not ask whether the id
    is stored: for an id that is not, it returns and leaves under that id
    an item that holds the key, [last_heartbeat] and [updated_at] and
    nothing else.  (The check for the id is the service's.) *)
Theorem repository_updateHeartbeat_adds_missing (env : Env) (id : string)
    (w : World) :
  dynamo_up env = true ->
  schedulers w !! id = None ->
  exists w',
    DynamoDBSchedulerRepository.updateHeartbeat env id w = (Ok tt, w')
    /\ schedulers w' !! id
       = Some (heartbeat_only id (clock env (clock_reads w))).
Proof.
  intros Hup Hnone. eexists. split.
  - by rewrite updateHeartbeat_run.
  - simpl. rewrite lookup_insert_eq.
    unfold DynamoDBSchedulerRepository.item_at. by rewrite Hnone.
Qed.

Lemma repository_updateHeartbeat_adds_missing_witness :
  exists w',
    DynamoDBSchedulerRepository.updateHeartbeat env_ok "ghost" empty_world
    = (Ok tt, w')
    /\ schedulers w' !! "ghost" = Some (heartbeat_only "ghost" 1700000000000).
Proof.
  apply (repository_updateHeartbeat_adds_missing env_ok "ghost" empty_world);
    reflexivity.
Defined.

(** X5.  [findByStatus], with DynamoDB answering, returns a scheduler if
    and only if it is stored and has the status asked for, and leaves
    the world as it is. *)
Theorem findByStatus_spec (env : Env) (st : SchedulerStatus) (w : World) :
  dynamo_up env = true ->
  exists found,
    DynamoDBSchedulerRepository.findByStatus env st w = (Ok found, w)
    /\ forall s : Scheduler,
         (s ∈ found)
         <-> (exists id, schedulers w !! id = Some s) /\ status s = Some st.
Proof.
  intros Hup. eexists. split.
  - unfold DynamoDBSchedulerRepository.findByStatus.
    by rewrite dynamo_run, fmap_mapToEntity.
  - intros s. rewrite list_elem_of_In, filter_In, <- list_elem_of_In.
    by rewrite elem_of_scan, bool_decide_eq_true.
Qed.

Lemma findByStatus_spec_witness :
  exists found,
    DynamoDBSchedulerRepository.findByStatus env_ok FAILED
      (world_with failed_job) = (Ok found, world_with failed_job)
    /\ (failed_job ∈ found).
Proof.
  destruct (findByStatus_spec env_ok FAILED (world_with failed_job) eq_refl)
    as (found & Hrun & Hfound).
  exists found. split; [exact Hrun|].
  apply Hfound. split; [|reflexivity].
  exists "svc-a-eod". reflexivity.
Defined.

(** ** Chunks *)

Lemma chunk_count_step (n size : nat) :
  0 < size -> 0 < n ->
  (n + size - 1) / size = S ((n - size + size - 1) / size).
Proof.
  intros Hsize Hn. destruct (decide (n <= size)) as [Hle|Hgt].
  - replace (n - size) with 0 by lia. simpl.
    rewrite (Nat.div_small (size - 1)) by lia.
    replace (n + size - 1) with ((n - 1) + 1 * size) by lia.
    rewrite Nat.div_add by lia. rewrite Nat.div_small by lia. done.
  - replace (n + size - 1) with ((n - size + size - 1) + 1 * size) by lia.
    rewrite Nat.div_add by lia. lia.
Qed.

Lemma chunk_loop_spec {T} (array : list T) (size : nat) :
  0 < size ->
  forall fuel i,
    length array - i <= fuel ->
    exists chunks,
      DynamoDBSchedulerRepository.chunk_loop fuel array size i = Some chunks
      /\ concat chunks = drop i array
      /\ Forall (fun chunk => 0 < length chunk <= size) chunks
      /\ full_but_last size chunks
      /\ length chunks = (length array - i + size - 1) / size.
Proof.
  intros Hsize fuel.
  induction fuel as [|fuel IH]; intros i Hfuel; simpl.
  - rewrite bool_decide_eq_false_2 by lia. exists []. repeat split.
    + by rewrite drop_ge by lia.
    + done.
    + by intros k chunk.
    + replace (length array - i) with 0 by lia. simpl.
      by rewrite Nat.div_small by lia.
  - case_bool_decide as Hi.
    2:{ exists []. repeat split.
        + by rewrite drop_ge by lia.
        + done.
        + by intros k chunk.
        + replace (length array - i) with 0 by lia. simpl.
          by rewrite Nat.div_small by lia. }
    destruct (IH (i + size)) as (rest & -> & Hconcat & Hsizes & Hfull & Hlen);
      [lia|].
    eexists. split; [reflexivity|].
    assert (Hslice :
      DynamoDBSchedulerRepository.slice array i (i + size)
      = take size (drop i array)).
    { unfold DynamoDBSchedulerRepository.slice. f_equal. lia. }
    rewrite Hslice. repeat split.
    + simpl. rewrite Hconcat, <- drop_drop. apply take_drop.
    + constructor; [|done]. rewrite length_take, length_drop. lia.
    + intros [|k] chunk Hk Hlast; simpl in *.
      * injection Hk as <-. rewrite length_take, length_drop.
        destruct rest as [|chunk' rest]; [simpl in Hlast; lia|].
        destruct (decide (i + size < length array)) as [|Hend]; [lia|].
        exfalso. replace (length array - (i + size)) with 0 in Hlen by lia.
        simpl in Hlen. rewrite Nat.div_small in Hlen by lia. done.
      * apply (Hfull k); [done|lia].
    + simpl. rewrite Hlen.
      rewrite (chunk_count_step (length array - i) size) by lia.
      do 3 f_equal. lia.
Qed.

(** With a size of 0 the loop over a non-empty array never ends. *)
Lemma chunk_loop_zero_size {T} (array : list T) (fuel : nat) :
  array <> [] ->
  DynamoDBSchedulerRepository.chunk_loop fuel array 0 0 = None.
Proof.
  intros Hne. assert (0 < length array) by (destruct array; [done|simpl; lia]).
  induction fuel as [|fuel IH]; simpl.
  - by rewrite bool_decide_eq_true_2.
  - rewrite bool_decide_eq_true_2 by done. by rewrite IH.
Qed.

(** X6.  [chunkArray] with a positive size returns, and the chunks it
    returns are the array cut in pieces: their concatenation is the
    array, no chunk is empty or longer than [size], every chunk but the
    last holds exactly [size] elements, and there are
    [(length + size - 1) / size] of them. *)
Theorem chunkArray_spec {T} (array : list T) (size : nat) :
  0 < size ->
  exists chunks,
    DynamoDBSchedulerRepository.chunkArray array size = Some chunks
    /\ concat chunks = array
    /\ Forall (fun chunk => 0 < length chunk <= size) chunks
    /\ full_but_last size chunks
    /\ length chunks = (length array + size - 1) / size.
Proof.
  intros Hsize.
  destruct (chunk_loop_spec array size Hsize (length array) 0)
    as (chunks & Hrun & Hconcat & Hsizes & Hfull & Hlen); [lia|].
  exists chunks. rewrite Nat.sub_0_r in Hlen. by rewrite drop_0 in Hconcat.
Qed.

Lemma chunkArray_spec_witness :
  exists chunks,
    DynamoDBSchedulerRepository.chunkArray [1; 2; 3; 4; 5; 6; 7] 3
    = Some chunks
    /\ concat chunks = [1; 2; 3; 4; 5; 6; 7]
    /\ length chunks = 3.
Proof.
  destruct (chunkArray_spec [1; 2; 3; 4; 5; 6; 7] 3)
    as (chunks & Hrun & Hconcat & _ & _ & Hlen); [lia|].
  exists chunks. split; [exact Hrun|]. split; [exact Hconcat|exact Hlen].
Defined.

(** ** The history of one scheduler *)

#[local] Instance newer_first_transitive :
  Transitive DynamoDBStatusHistoryRepository.newer_first.
Proof.
  intros a b c. unfold DynamoDBStatusHistoryRepository.newer_first. lia.
Qed.

#[local] Instance newer_first_total :
  Total DynamoDBStatusHistoryRepository.newer_first.
Proof.
  intros a b. unfold DynamoDBStatusHistoryRepository.newer_first. lia.
Qed.





(** X8.  [getSchedulerHistory] with a limit below 1 (0 or a negative
    number) throws and leaves the world as it is: it does not return an
    empty list. *)
Theorem getSchedulerHistory_refuses_limit_below_one (env : Env) (id : string)
    (limit : Z) (w : World) :
  (limit < 1)%Z ->
  exists e, SchedulerService.getSchedulerHistory env id (Some limit) w
            = (Throw e, w).
Proof.
  intros Hlimit.
  unfold SchedulerService.getSchedulerHistory,
    DynamoDBStatusHistoryRepository.findBySchedulerId, dynamo.
  destruct (dynamo_up env); [|by eexists]. simpl.
  destruct (Z.ltb_spec limit 1); [by eexists|lia].
Qed.

Lemma getSchedulerHistory_refuses_limit_below_one_witness :
  exists e,
    SchedulerService.getSchedulerHistory env_ok "a" (Some 0%Z) both_completed
    = (Throw e, both_completed).
Proof.
  apply getSchedulerHistory_refuses_limit_below_one. lia.
Defined.



(** ** The triggers of the window *)

Lemma sendInitialStatusTable_run (env : Env) (w : World) :
  SLACK_ENABLED env = true ->
  dynamo_up env = true ->
  let blocks := status_table env w (clock env (clock_reads w)) in
  let posted :=
    log_slack_call
      (PostMessage blocks SlackNotificationService.statusTableText)
      (tick_clock w) in
  SlackWorkerService.sendInitialStatusTable env w
  = (Ok tt,
     match chat_postMessage env blocks
             SlackNotificationService.statusTableText with
     | Some ts => set_currentMessageTs (Some ts) posted
     | None => posted
     end).
Proof.
  intros Hen Hup blocks posted.
  unfold SlackWorkerService.sendInitialStatusTable,
    SlackNotificationService.isEnabled.
  rewrite Hen. simpl. unfold try_catch, bind at 1.
  rewrite findAll_run by done.
  unfold bind at 1. unfold new_Date at 1. unfold bind at 1.
  unfold SlackNotificationService.sendStatusTable. rewrite Hen. simpl.
  unfold SlackNotificationService.postMessage.
  fold (status_table env w (clock env (clock_reads w))). fold blocks.
  simpl. fold posted.
  by destruct (chat_postMessage env blocks _).
Qed.

(** X10.  The opening of the window ([sendInitialStatusTable]), with
    Slack enabled and DynamoDB answering: it posts one message, the
    status table of the stored schedulers, and returns; the handle
    becomes the [ts] of that message when Slack accepts it (whatever
    handle was held before) and stays as it was when Slack refuses; the
    tables are untouched. *)
Theorem sendInitialStatusTable_spec (env : Env) (w : World) :
  SLACK_ENABLED env = true ->
  dynamo_up env = true ->
  let blocks := status_table env w (clock env (clock_reads w)) in
  exists w',
    SlackWorkerService.sendInitialStatusTable env w = (Ok tt, w')
    /\ schedulers w' = schedulers w
    /\ status_history w' = status_history w
    /\ slack_calls w'
       = slack_calls w
         ++ [PostMessage blocks SlackNotificationService.statusTableText]
    /\ currentMessageTs w'
       = match chat_postMessage env blocks
                 SlackNotificationService.statusTableText with
         | Some ts => Some ts
         | None => currentMessageTs w
         end.
Proof.
  intros Hen Hup blocks. eexists.
  split; [by apply sendInitialStatusTable_run|]. fold blocks.
  by destruct (chat_postMessage env blocks _).
Qed.

Lemma sendInitialStatusTable_spec_witness :
  exists w',
    SlackWorkerService.sendInitialStatusTable env_ok both_completed
    = (Ok tt, w')
    /\ currentMessageTs w' = Some "1700000000.000100".
Proof.
  destruct (sendInitialStatusTable_spec env_ok both_completed eq_refl eq_refl)
    as (w' & Hrun & _ & _ & _ & Hts).
  exists w'. split; [exact Hrun|exact Hts].
Defined.

(** X11.  The hourly refresh ([updateStatusTable] of the worker) does
    nothing but read the clock when the hour is not after the start hour
    or is after the end hour: at the start hour itself it is idle, at the
    end hour it still works. *)
Theorem refresh_idle_outside_its_hours (env : Env) (w : World) :
  SLACK_ENABLED env = true ->
  ~ refresh_hours env (current_hour env w) ->
  SlackWorkerService.updateStatusTable env w = (Ok tt, tick_clock w).
Proof.
  intros Hen Hout.
  unfold SlackWorkerService.updateStatusTable,
    SlackNotificationService.isEnabled.
  rewrite Hen. simpl. unfold bind, new_Date.
  unfold refresh_hours, current_hour in Hout.
  unfold SlackWorkerService.startHour, SlackWorkerService.endHour.
  destruct (_ || _) eqn:Hhours; [done|].
  apply orb_false_iff in Hhours as [H1 H2].
  apply bool_decide_eq_false in H1, H2. lia.
Qed.

Lemma refresh_idle_outside_its_hours_witness :
  current_hour env_opening_at_five all_done = 5%Z
  /\ SlackWorkerService.updateStatusTable env_opening_at_five all_done
     = (Ok tt, tick_clock all_done).
Proof.
  split; [by vm_compute|].
  apply refresh_idle_outside_its_hours; [reflexivity|].
  unfold refresh_hours. vm_compute. intros [H _]. discriminate H.
Defined.

Lemma refresh_in_its_hours (env : Env) (w : World) :
  refresh_hours env (current_hour env w) ->
  bool_decide (getHours env (clock env (clock_reads w))
               ≤ SlackWorkerService.startHour env)%Z
  || bool_decide (SlackWorkerService.endHour env
                  < getHours env (clock env (clock_reads w)))%Z = false.
Proof.
  unfold refresh_hours, current_hour, SlackWorkerService.startHour,
    SlackWorkerService.endHour.
  intros Hin. apply orb_false_iff.
  split; apply bool_decide_eq_false; lia.
Qed.

Lemma held_Some (h : option string) (ts : string) :
  SlackWorkerService.held h = Some ts -> h = Some ts.
Proof. destruct h as [[|]|]; simpl; congruence. Qed.

Lemma refresh_held_run (env : Env) (w : World) (ts : string) :
  SLACK_ENABLED env = true ->
  refresh_hours env (current_hour env w) ->
  SlackWorkerService.held (currentMessageTs w) = Some ts ->
  let blocks := status_table env w (clock env (S (clock_reads w))) in
  let edit :=
    UpdateMessage ts blocks SlackNotificationService.statusTableText in
  SlackWorkerService.updateStatusTable env w
  = (Ok tt,
     if dynamo_up env then
       if chat_update env ts blocks SlackNotificationService.statusTableText
       then log_slack_call edit (tick_clock (tick_clock w))
       else set_currentMessageTs None
              (log_slack_call edit (tick_clock (tick_clock w)))
     else set_currentMessageTs None (tick_clock w)).
Proof.
  intros Hen Hin Hheld blocks edit.
  unfold SlackWorkerService.updateStatusTable,
    SlackNotificationService.isEnabled.
  rewrite Hen. simpl. unfold bind at 1. unfold new_Date at 1.
  rewrite refresh_in_its_hours by done.
  unfold bind at 1. unfold SlackWorkerService.read_currentMessageTs at 1.
  change (currentMessageTs (tick_clock w)) with (currentMessageTs w).
  rewrite Hheld. apply held_Some in Hheld.
  unfold try_catch, bind at 1.
  destruct (dynamo_up env) eqn:Hup.
  - rewrite findAll_run by done.
    unfold bind at 1. unfold SlackWorkerService.read_currentMessageTs at 1.
    unfold bind at 1. unfold new_Date at 1.
    unfold SlackNotificationService.updateStatusTable. rewrite Hen. simpl.
    rewrite Hheld. simpl.
    unfold SlackNotificationService.chatUpdate.
    change (DynamoDBSchedulerRepository.scan (tick_clock w))
      with (DynamoDBSchedulerRepository.scan w).
    fold (status_table env w (clock env (S (clock_reads w)))). fold blocks.
    fold edit. by destruct (chat_update env ts blocks _).
  - unfold DynamoDBSchedulerRepository.findAll.
    by rewrite dynamo_down.
Qed.

(** X12.  The hourly refresh within its hours, with a message held: it
    asks Slack to edit that message with the current status table and
    posts nothing; the handle is kept when the edit is accepted and
    dropped when it is refused, and also when DynamoDB does not answer
    (no request is made to Slack then).  It returns in every case. *)
Theorem refresh_edits_held_message (env : Env) (w : World) (ts : string) :
  SLACK_ENABLED env = true ->
  refresh_hours env (current_hour env w) ->
  SlackWorkerService.held (currentMessageTs w) = Some ts ->
  let blocks := status_table env w (clock env (S (clock_reads w))) in
  let accepted :=
    dynamo_up env
    && chat_update env ts blocks SlackNotificationService.statusTableText in
  exists w',
    SlackWorkerService.updateStatusTable env w = (Ok tt, w')
    /\ schedulers w' = schedulers w
    /\ status_history w' = status_history w
    /\ slack_calls w'
       = slack_calls w
         ++ (if dynamo_up env
             then [UpdateMessage ts blocks
                     SlackNotificationService.statusTableText]
             else [])
    /\ currentMessageTs w' = if accepted then Some ts else None.
Proof.
  intros Hen Hin Hheld blocks accepted. eexists.
  split; [by apply refresh_held_run|]. fold blocks. subst accepted.
  apply held_Some in Hheld.
  destruct (dynamo_up env); simpl; [|by rewrite app_nil_r].
  by destruct (chat_update env ts blocks _).
Qed.

Lemma refresh_edits_held_message_witness :
  exists w',
    SlackWorkerService.updateStatusTable env_ok all_done = (Ok tt, w')
    /\ currentMessageTs w' = Some "1700000000.000100".
Proof.
  destruct (refresh_edits_held_message env_ok all_done "1700000000.000100")
    as (w' & Hrun & _ & _ & _ & Hts);
    [reflexivity|by vm_compute|by vm_compute|].
  exists w'. split; [exact Hrun|exact Hts].
Defined.

(** X13.  The refresh heals itself: when Slack refuses the edit of the
    held message the handle is dropped, and the next refresh within its
    hours posts the status table as a new message, whose [ts] becomes
    the handle once Slack accepts it.  The two refreshes make exactly
    those two requests. *)
Theorem refresh_self_heals (env1 env2 : Env) (w : World) (ts ts' : string) :
  SLACK_ENABLED env1 = true -> dynamo_up env1 = true ->
  SLACK_ENABLED env2 = true -> dynamo_up env2 = true ->
  SlackWorkerService.held (currentMessageTs w) = Some ts ->
  let w1 := run env1 Refresh w in
  let w2 := run env2 Refresh w1 in
  let edit := status_table env1 w (clock env1 (S (clock_reads w))) in
  let post := status_table env2 w (clock env2 (3 + clock_reads w)) in
  refresh_hours env1 (current_hour env1 w) ->
  refresh_hours env2 (current_hour env2 w1) ->
  chat_update env1 ts edit SlackNotificationService.statusTableText = false ->
  chat_postMessage env2 post SlackNotificationService.statusTableText
  = Some ts' ->
  currentMessageTs w1 = None
  /\ currentMessageTs w2 = Some ts'
  /\ slack_calls w2
     = slack_calls w
       ++ [UpdateMessage ts edit SlackNotificationService.statusTableText;
           PostMessage post SlackNotificationService.statusTableText].
Proof.
  intros Hen1 Hup1 Hen2 Hup2 Hheld w1 w2 edit post Hin1 Hin2 Hrefused Hposted.
  assert (Hw1 : w1 = set_currentMessageTs None
                       (log_slack_call
                          (UpdateMessage ts edit
                             SlackNotificationService.statusTableText)
                          (tick_clock (tick_clock w)))).
  { unfold w1. simpl. rewrite (refresh_held_run env1 w ts) by done.
    rewrite Hup1. fold edit. by rewrite Hrefused. }
  split; [by rewrite Hw1|].
  assert (Hw2 : w2 = (SlackWorkerService.sendInitialStatusTable env2
                        (tick_clock w1)).2).
  { unfold w2. simpl.
    unfold SlackWorkerService.updateStatusTable,
      SlackNotificationService.isEnabled.
    rewrite Hen2. simpl. unfold bind at 1. unfold new_Date at 1.
    rewrite refresh_in_its_hours by done.
    unfold bind at 1. unfold SlackWorkerService.read_currentMessageTs at 1.
    change (currentMessageTs (tick_clock w1)) with (currentMessageTs w1).
    by rewrite Hw1. }
  rewrite Hw2, sendInitialStatusTable_run by done.
  assert (Hblocks :
    status_table env2 (tick_clock w1)
      (clock env2 (clock_reads (tick_clock w1))) = post).
  { by rewrite Hw1. }
  rewrite Hblocks, Hposted. rewrite Hw1. simpl.
  by rewrite <- app_assoc.
Qed.

Lemma refresh_self_heals_witness :
  currentMessageTs (run env_slack_down Refresh all_done) = None
  /\ currentMessageTs
       (run env_ok Refresh (run env_slack_down Refresh all_done))
     = Some "1700000000.000100".
Proof.
  destruct (refresh_self_heals env_slack_down env_ok all_done
              "1700000000.000100" "1700000000.000100")
    as (Hdropped & Hheld & _);
    [reflexivity|reflexivity|reflexivity|reflexivity|by vm_compute
    |by vm_compute|by vm_compute|reflexivity|reflexivity|].
  split; [exact Hdropped|exact Hheld].
Defined.

(** ** The sweep for stale schedulers *)








(** ** Heartbeats and staleness *)



(** ** The alert of a failed report, in full *)

(** X16.  A status report ([updateStatus]) for a stored scheduler, with
    DynamoDB answering, makes one request to Slack, the alert for the
    scheduler as it is now stored, when Slack is enabled and the reported
    status is [FAILED], and none otherwise; the status stored before
    plays no part, so every failed report alerts. *)
Theorem updateStatus_alerts_failed_reports_only (env : Env)
    (dto : UpdateStatusDto) (w : World) (old : Scheduler) (sid : string) :
  dynamo_up env = true ->
  schedulers w !! u_scheduler_id dto = Some old ->
  scheduler_id old = Some sid ->
  slack_calls (SchedulerService.updateStatus env dto w).2
  = slack_calls w
    ++ (if SLACK_ENABLED env && bool_decide (u_status dto = FAILED)
        then [failed_alert env (reported env w dto old)]
        else []).
Proof.
  intros Hup Hold Hsid.
  rewrite (updateStatus_run env Hup dto w old sid) by done.
  case_bool_decide as Hfailed.
  - rewrite sendFailedJobAlert_run.
    destruct (SLACK_ENABLED env); simpl; [|by rewrite app_nil_r].
    by destruct (chat_postMessage env _ _).
  - rewrite andb_false_r. simpl. by rewrite app_nil_r.
Qed.

Lemma updateStatus_alerts_failed_reports_only_witness :
  slack_calls
    (SchedulerService.updateStatus env_ok failed_report
       (world_with failed_job)).2
  = [failed_alert env_ok
       (reported env_ok (world_with failed_job) failed_report failed_job)].
Proof.
  apply (updateStatus_alerts_failed_reports_only env_ok failed_report
           (world_with failed_job) failed_job "svc-a-eod"); reflexivity.
Defined.

(** X17.  The blocks of the alert of a failed job ([sendFailedJobAlert]):
    there is a section for the error message if and only if the scheduler
    has a non-empty [error_message], and it quotes that message; the last
    block mentions the user of [alert_user_id], or [@channel] when that
    property is absent or empty. *)
Theorem failedJobBlocks_content (env : Env) (s : Scheduler) :
  (forall text,
     (SectionText text ∈ SlackNotificationService.failedJobBlocks env s)
     <-> exists msg,
           error_message s = Some msg /\ msg <> ""
           /\ text = "*Error Message:*" +:+ LF +:+ "```" +:+ msg +:+ "```")
  /\ last (SlackNotificationService.failedJobBlocks env s)
     = Some (ContextBlock
               [match alert_user_id s with
                | Some user => if decide (user = "") then "@channel"
                               else "<@" +:+ user +:+ ">"
                | None => "@channel"
                end +:+ " Please investigate this issue."]).
Proof.
  unfold SlackNotificationService.failedJobBlocks. split.
  - intros text. rewrite !elem_of_app, !elem_of_cons, !elem_of_nil.
    split.
    + intros [[|[|[]]]|[Hin|[|[]]]]; try discriminate.
      destruct (error_message s) as [[|c msg]|]; simpl in Hin;
        try by apply elem_of_nil in Hin.
      apply list_elem_of_singleton in Hin. injection Hin as ->.
      by eexists.
    + intros (msg & -> & Hne & ->). right. left.
      destruct msg as [|c msg]; [done|]. apply list_elem_of_singleton.
      reflexivity.
  - rewrite app_assoc, last_snoc. do 3 f_equal.
    unfold SlackNotificationService.userMention.
    by destruct (alert_user_id s) as [[|c user]|].
Qed.

(** ** The summary of the status table *)

Lemma fold_count_status (l : list Scheduler)
    (acc : SlackNotificationService.Summary) :
  let total := fold_left SlackNotificationService.count_status l acc in
  SlackNotificationService.Pending total
  = SlackNotificationService.Pending acc + with_status (Some PENDING) l
  /\ SlackNotificationService.Running total
     = SlackNotificationService.Running acc + with_status (Some RUNNING) l
  /\ SlackNotificationService.Completed total
     = SlackNotificationService.Completed acc
       + with_status (Some COMPLETED) l
  /\ SlackNotificationService.Failed total
     = SlackNotificationService.Failed acc + with_status (Some FAILED) l.
Proof.
  revert acc. induction l as [|s l IH]; intros acc; simpl.
  - unfold with_status. simpl. lia.
  - destruct (IH (SlackNotificationService.count_status acc s))
      as (Hp & Hr & Hc & Hf).
    rewrite Hp, Hr, Hc, Hf. unfold with_status.
    unfold SlackNotificationService.count_status. simpl.
    destruct (status s) as [[]|]; simpl; lia.
Qed.

(** X18.  [buildStatusSummary]: each of the four counts is the number of
    schedulers of the list with that status, and the four counts and the
    number of schedulers without a status add up to the length of the
    list. *)
Theorem buildStatusSummary_counts (l : list Scheduler) :
  let summary := SlackNotificationService.buildStatusSummary l in
  SlackNotificationService.Pending summary = with_status (Some PENDING) l
  /\ SlackNotificationService.Running summary = with_status (Some RUNNING) l
  /\ SlackNotificationService.Completed summary
     = with_status (Some COMPLETED) l
  /\ SlackNotificationService.Failed summary = with_status (Some FAILED) l
  /\ SlackNotificationService.Pending summary
     + SlackNotificationService.Running summary
     + SlackNotificationService.Completed summary
     + SlackNotificationService.Failed summary
     + with_status None l = length l.
Proof.
  intros summary.
  destruct (fold_count_status l (SlackNotificationService.mkSummary 0 0 0 0))
    as (Hp & Hr & Hc & Hf).
  fold (SlackNotificationService.buildStatusSummary l) in Hp, Hr, Hc, Hf.
  fold summary in Hp, Hr, Hc, Hf. simpl in Hp, Hr, Hc, Hf.
  repeat split; [done..|].
  rewrite Hp, Hr, Hc, Hf. unfold with_status. clear.
  induction l as [|s l IH]; simpl; [done|].
  destruct (status s) as [[]|]; simpl; lia.
Qed.

(** ** The controller *)

Lemma with_own_scheduler_id (dto : UpdateStatusDto) :
  SchedulerController.with_scheduler_id (u_scheduler_id dto) dto = dto.
Proof. by destruct dto. Qed.

Lemma controller_updateStatus_run (env : Env) (id : string)
    (dto : UpdateStatusDto) :
  SchedulerController.updateStatus env id dto
  = SchedulerService.updateStatus env
      (SchedulerController.with_scheduler_id id dto).
Proof.
  unfold SchedulerController.updateStatus. case_bool_decide as Hid; [done|].
  subst id. by rewrite with_own_scheduler_id.
Qed.

(** X21.  [sendHeartbeat] of the controller, with DynamoDB answering: for
    a stored id it records the heartbeat and answers with the id and a
    timestamp that is read from the clock after the write, one reading
    later than the heartbeat it has stored; for an unknown id it throws
    [NotFoundException] and changes nothing. *)
Theorem sendHeartbeat_spec (env : Env) (id : string) (w : World) :
  dynamo_up env = true ->
  match schedulers w !! id with
  | Some old =>
      exists w',
        SchedulerController.sendHeartbeat env id w
        = (Ok {| SchedulerController.hr_message := "Heartbeat recorded";
                 SchedulerController.hr_scheduler_id := id;
                 SchedulerController.hr_timestamp :=
                   clock env (S (clock_reads w)) |}, w')
        /\ schedulers w'
           = <[id := DynamoDBSchedulerRepository.with_heartbeat
                       (clock env (clock_reads w)) old]> (schedulers w)
  | None =>
      exists message,
        SchedulerController.sendHeartbeat env id w
        = (Throw (NotFoundException message), w)
  end.
Proof.
  intros Hup. destruct (schedulers w !! id) as [old|] eqn:Hold.
  - eexists. unfold SchedulerController.sendHeartbeat, bind.
    rewrite (updateHeartbeat_known env Hup id w old) by done.
    unfold new_Date. simpl. split; reflexivity.
  - eexists. unfold SchedulerController.sendHeartbeat, bind.
    by rewrite updateHeartbeat_unknown.
Qed.

Lemma sendHeartbeat_spec_witness :
  exists w',
    SchedulerController.sendHeartbeat env_ok "svc-a-eod"
      (world_with failed_job)
    = (Ok {| SchedulerController.hr_message := "Heartbeat recorded";
             SchedulerController.hr_scheduler_id := "svc-a-eod";
             SchedulerController.hr_timestamp := 1700000001000 |}, w')
    /\ (last_heartbeat <$> schedulers w' !! "svc-a-eod")
       = Some (Some 1700000000000%Z).
Proof.
  pose proof (sendHeartbeat_spec env_ok "svc-a-eod" (world_with failed_job)
                eq_refl) as Hspec.
  change (schedulers (world_with failed_job) !! "svc-a-eod")
    with (Some failed_job) in Hspec.
  destruct Hspec as (w' & Hrun & Htable).
  exists w'. split; [exact Hrun|]. rewrite Htable. reflexivity.
Defined.

(** ** What the operations keep *)

(** The operations, request by request, for a property that the
    counters of the clock and of the identifiers do not affect, and that
    a request to Slack, made with Slack enabled, does not affect. *)
Ltac slack_cases env Hen :=
  destruct (decide (SLACK_ENABLED env = true)) as [Hen|Hen];
  [|apply not_true_is_false in Hen]; rewrite Hen; simpl.

Section RequestsKeep.
Context (env : Env) (P : World -> Prop).
Hypothesis P_clock : forall w, P w -> P (tick_clock w).
Hypothesis P_uuid : forall w, P w -> P (tick_uuid w).
Hypothesis P_slack :
  SLACK_ENABLED env = true ->
  forall call w, P w -> P (log_slack_call call w).

Lemma new_Date_keeps : preserves P (new_Date env).
Proof. intros w Hw. by apply P_clock. Qed.

Lemma new_uuid_keeps : preserves P (new_uuid env).
Proof. intros w Hw. by apply P_uuid. Qed.

Lemma findById_keeps (id : string) :
  preserves P (DynamoDBSchedulerRepository.findById env id).
Proof.
  unfold DynamoDBSchedulerRepository.findById. split_computation.
  by intros w Hw.
Qed.

Lemma findAll_keeps : preserves P (DynamoDBSchedulerRepository.findAll env).
Proof.
  unfold DynamoDBSchedulerRepository.findAll. split_computation.
  by intros w Hw.
Qed.

Lemma findStaleSchedulers_keeps (timeoutMinutes : Z) :
  preserves P
    (DynamoDBSchedulerRepository.findStaleSchedulers env timeoutMinutes).
Proof.
  unfold DynamoDBSchedulerRepository.findStaleSchedulers.
  split_computation; [apply new_Date_keeps|by intros w Hw].
Qed.

Lemma findBySchedulerId_keeps (id : string) (limit : option Z) :
  preserves P (DynamoDBStatusHistoryRepository.findBySchedulerId env id limit).
Proof.
  unfold DynamoDBStatusHistoryRepository.findBySchedulerId.
  split_computation. intros w Hw. simpl. by case_match.
Qed.

Lemma postMessage_keeps (blocks : list Block) (text : string) :
  SLACK_ENABLED env = true ->
  preserves P (SlackNotificationService.postMessage env blocks text).
Proof.
  intros Hen w Hw. unfold SlackNotificationService.postMessage.
  case_match; simpl; by apply P_slack.
Qed.

Lemma chatUpdate_keeps (ts : string) (blocks : list Block) (text : string) :
  SLACK_ENABLED env = true ->
  preserves P (SlackNotificationService.chatUpdate env ts blocks text).
Proof.
  intros Hen w Hw. unfold SlackNotificationService.chatUpdate.
  case_match; simpl; by apply P_slack.
Qed.

Lemma sendFailedJobAlert_keeps (s : Scheduler) :
  preserves P (SlackNotificationService.sendFailedJobAlert env s).
Proof.
  unfold SlackNotificationService.sendFailedJobAlert.
  slack_cases env Hen; split_computation.
  by apply postMessage_keeps.
Qed.

Lemma sendTimeoutWarning_keeps (s : Scheduler) :
  preserves P (SlackNotificationService.sendTimeoutWarning env s).
Proof.
  unfold SlackNotificationService.sendTimeoutWarning.
  slack_cases env Hen; split_computation.
  by apply postMessage_keeps.
Qed.

Lemma sendAllClearSummary_keeps (l : list Scheduler) :
  preserves P (SlackNotificationService.sendAllClearSummary env l).
Proof.
  unfold SlackNotificationService.sendAllClearSummary.
  slack_cases env Hen; split_computation;
    [apply new_Date_keeps|by apply postMessage_keeps].
Qed.

Lemma sendStatusTable_keeps (l : list Scheduler) (ts : Z) :
  preserves P (SlackNotificationService.sendStatusTable env l ts).
Proof.
  unfold SlackNotificationService.sendStatusTable.
  slack_cases env Hen; split_computation.
  by apply postMessage_keeps.
Qed.

Lemma updateStatusTable_keeps (ts : string) (l : list Scheduler) (now : Z) :
  preserves P (SlackNotificationService.updateStatusTable env ts l now).
Proof.
  unfold SlackNotificationService.updateStatusTable.
  slack_cases env Hen; split_computation.
  by apply chatUpdate_keeps.
Qed.

Lemma getScheduler_keeps (id : string) :
  preserves P (SchedulerService.getScheduler env id).
Proof.
  unfold SchedulerService.getScheduler.
  split_computation; auto using findById_keeps.
Qed.

Lemma service_checkStaleSchedulers_keeps :
  preserves P (SchedulerService.checkStaleSchedulers env).
Proof.
  unfold SchedulerService.checkStaleSchedulers.
  split_computation;
    auto using findStaleSchedulers_keeps, sendTimeoutWarning_keeps.
Qed.

Lemma checkAllClear_keeps : preserves P (SchedulerService.checkAllClear env).
Proof.
  unfold SchedulerService.checkAllClear.
  split_computation; auto using findAll_keeps, sendAllClearSummary_keeps.
Qed.

Lemma worker_checkStaleSchedulers_keeps :
  preserves P (SlackWorkerService.checkStaleSchedulers env).
Proof.
  unfold SlackWorkerService.checkStaleSchedulers.
  split_computation;
    auto using new_Date_keeps, findStaleSchedulers_keeps,
      sendTimeoutWarning_keeps.
Qed.

(** The triggers of the window write the handle, with Slack enabled. *)
Hypothesis P_handle :
  SLACK_ENABLED env = true ->
  forall ts w, P w -> P (set_currentMessageTs ts w).

Lemma write_currentMessageTs_keeps (ts : option string) :
  SLACK_ENABLED env = true ->
  preserves P (SlackWorkerService.write_currentMessageTs ts).
Proof. intros Hen w Hw. by apply P_handle. Qed.

Lemma read_currentMessageTs_keeps :
  preserves P SlackWorkerService.read_currentMessageTs.
Proof. by intros w Hw. Qed.

Lemma sendInitialStatusTable_keeps :
  preserves P (SlackWorkerService.sendInitialStatusTable env).
Proof.
  unfold SlackWorkerService.sendInitialStatusTable,
    SlackNotificationService.isEnabled.
  slack_cases env Hen; split_computation;
    auto using findAll_keeps, new_Date_keeps, sendStatusTable_keeps,
      write_currentMessageTs_keeps.
Qed.

Lemma worker_updateStatusTable_keeps :
  preserves P (SlackWorkerService.updateStatusTable env).
Proof.
  pose proof sendInitialStatusTable_keeps as Hinitial.
  unfold SlackWorkerService.updateStatusTable,
    SlackNotificationService.isEnabled.
  slack_cases env Hen; split_computation;
    auto using findAll_keeps, new_Date_keeps, read_currentMessageTs_keeps,
      updateStatusTable_keeps, write_currentMessageTs_keeps.
Qed.

Lemma sendFinalStatusSummary_keeps :
  preserves P (SlackWorkerService.sendFinalStatusSummary env).
Proof.
  unfold SlackWorkerService.sendFinalStatusSummary,
    SlackNotificationService.isEnabled.
  slack_cases env Hen; split_computation;
    auto using findAll_keeps, new_Date_keeps, read_currentMessageTs_keeps,
      updateStatusTable_keeps, sendAllClearSummary_keeps,
      write_currentMessageTs_keeps.
Qed.

(** The writes of registrations and of heartbeats. *)
Hypothesis P_create :
  forall s, preserves P (DynamoDBSchedulerRepository.create env s).
Hypothesis P_register_update :
  forall dto,
    preserves P
      (DynamoDBSchedulerRepository.update env (r_scheduler_id dto)
         (SchedulerService.descriptive_updates dto)).
Hypothesis P_updateHeartbeat :
  forall id, preserves P (DynamoDBSchedulerRepository.updateHeartbeat env id).

Lemma registerScheduler_keeps (dto : RegisterSchedulerDto) :
  preserves P (SchedulerService.registerScheduler env dto).
Proof.
  unfold SchedulerService.registerScheduler.
  split_computation; auto using findById_keeps, new_Date_keeps.
Qed.

Lemma updateHeartbeat_keeps (id : string) :
  preserves P (SchedulerService.updateHeartbeat env id).
Proof.
  unfold SchedulerService.updateHeartbeat.
  split_computation; auto using findById_keeps.
Qed.

(** Every operation but a status report keeps [P]. *)
Lemma run_keeps_but_reports (op : Operation) (w : World) :
  (forall dto, op <> ReportStatus dto) -> P w -> P (run env op w).
Proof.
  intros Hop. destruct op; simpl.
  - apply registerScheduler_keeps.
  - by destruct (Hop dto).
  - apply updateHeartbeat_keeps.
  - apply getScheduler_keeps.
  - apply findAll_keeps.
  - apply findBySchedulerId_keeps.
  - apply service_checkStaleSchedulers_keeps.
  - apply checkAllClear_keeps.
  - apply sendInitialStatusTable_keeps.
  - apply worker_updateStatusTable_keeps.
  - apply sendFinalStatusSummary_keeps.
  - apply worker_checkStaleSchedulers_keeps.
Qed.

(** A status report writes the scheduler and an item of its history. *)
Lemma updateStatus_keeps (dto : UpdateStatusDto) :
  (forall t,
     preserves P
       (DynamoDBSchedulerRepository.update env (u_scheduler_id dto)
          (SchedulerService.status_updates dto t))) ->
  (forall s,
     preserves P
       (DynamoDBStatusHistoryRepository.create env
          (SchedulerService.snapshot s))) ->
  preserves P (SchedulerService.updateStatus env dto).
Proof.
  intros P_report_update P_history.
  unfold SchedulerService.updateStatus, SchedulerService.createStatusHistory,
    SchedulerService.handleFailedJob.
  split_computation;
    auto using findById_keeps, new_Date_keeps, sendFailedJobAlert_keeps.
Qed.

Lemma run_keeps (op : Operation) (w : World) :
  (forall dto t,
     preserves P
       (DynamoDBSchedulerRepository.update env (u_scheduler_id dto)
          (SchedulerService.status_updates dto t))) ->
  (forall s,
     preserves P
       (DynamoDBStatusHistoryRepository.create env
          (SchedulerService.snapshot s))) ->
  P w -> P (run env op w).
Proof.
  intros P_report_update P_history.
  destruct op; try (by apply run_keeps_but_reports).
  by apply updateStatus_keeps.
Qed.

End RequestsKeep.

(** Closes the goal for a write to one of the tables, for a property
    that the goal's context shows to hold after the write. *)
Ltac table_write :=
  unfold DynamoDBSchedulerRepository.create,
    DynamoDBSchedulerRepository.update,
    DynamoDBSchedulerRepository.updateHeartbeat,
    DynamoDBStatusHistoryRepository.create;
  split_computation;
  let w := fresh "w" in
  let Hw := fresh "Hw" in
  intros w Hw; simpl in *; repeat (case_match; simpl in *); try done.

(** *** The triggers of the worker *)

Lemma sendInitialStatusTable_returns (env : Env) :
  never_throws (SlackWorkerService.sendInitialStatusTable env).
Proof.
  intros w. unfold SlackWorkerService.sendInitialStatusTable.
  destruct (negb _); [by eexists|]. unfold try_catch.
  destruct (bind _ _ w) as [[[]|e] w']; by eexists.
Qed.

Lemma worker_triggers_keep_tables (env : Env) (op : Operation) :
  op ∈ [WindowOpen; Refresh; WindowClose; StaleSweep] ->
  forall w,
    schedulers (run env op w) = schedulers w
    /\ status_history (run env op w) = status_history w.
Proof.
  intros Hop w.
  set (P := fun w' : World =>
    schedulers w' = schedulers w /\ status_history w' = status_history w).
  assert (Hclock : forall w', P w' -> P (tick_clock w')) by done.
  assert (Huuid : forall w', P w' -> P (tick_uuid w')) by done.
  assert (Hslack : SLACK_ENABLED env = true ->
                   forall call w', P w' -> P (log_slack_call call w'))
    by done.
  assert (Hhandle : SLACK_ENABLED env = true ->
                    forall ts w', P w' -> P (set_currentMessageTs ts w'))
    by done.
  change (P (run env op w)).
  rewrite !elem_of_cons, elem_of_nil in Hop.
  destruct Hop as [->|[->|[->|[->|[]]]]]; simpl.
  - by apply sendInitialStatusTable_keeps.
  - by apply worker_updateStatusTable_keeps.
  - by apply sendFinalStatusSummary_keeps.
  - by apply worker_checkStaleSchedulers_keeps.
Qed.

(** X19.  The four triggers of the worker return in every world and
    every environment, whatever DynamoDB and Slack do, and none of them
    writes to the scheduler table or to the history. *)
Theorem worker_triggers_return_and_keep_tables (env : Env) :
  Forall (fun trigger => never_throws trigger /\ keeps_tables trigger)
    [SlackWorkerService.sendInitialStatusTable env;
     SlackWorkerService.updateStatusTable env;
     SlackWorkerService.sendFinalStatusSummary env;
     SlackWorkerService.checkStaleSchedulers env].
Proof.
  apply Forall_cons_2; [split|apply Forall_cons_2; [split|
    apply Forall_cons_2; [split|apply Forall_cons_2; [split|
    apply Forall_nil_2]]]].
  - apply sendInitialStatusTable_returns.
  - intros w. apply (worker_triggers_keep_tables env WindowOpen). set_solver.
  - intros w. unfold SlackWorkerService.updateStatusTable.
    destruct (negb _); [by eexists|].
    unfold bind at 1. unfold new_Date at 1.
    destruct (_ || _); [by eexists|].
    unfold bind at 1. unfold SlackWorkerService.read_currentMessageTs at 1.
    destruct (SlackWorkerService.held _).
    + unfold try_catch. destruct (bind _ _ _) as [[[]|e] w']; by eexists.
    + apply sendInitialStatusTable_returns.
  - intros w. apply (worker_triggers_keep_tables env Refresh). set_solver.
  - intros w. unfold SlackWorkerService.sendFinalStatusSummary.
    destruct (negb _); [by eexists|]. unfold try_catch.
    destruct (bind _ _ w) as [[[]|e] w']; by eexists.
  - intros w. apply (worker_triggers_keep_tables env WindowClose). set_solver.
  - intros w. unfold SlackWorkerService.checkStaleSchedulers.
    unfold bind at 1. unfold new_Date at 1.
    destruct (_ || _); [by eexists|]. unfold try_catch.
    destruct (bind _ _ _) as [[[]|e] w']; by eexists.
  - intros w. apply (worker_triggers_keep_tables env StaleSweep). set_solver.
Qed.

(** *** Slack disabled *)

Lemma run_disabled_makes_no_request (env : Env) (op : Operation) (w : World) :
  SLACK_ENABLED env = false ->
  slack_calls (run env op w) = slack_calls w.
Proof.
  intros Hoff.
  set (P := fun w' : World => slack_calls w' = slack_calls w).
  change (P (run env op w)).
  apply run_keeps; try done; try congruence; intros; table_write.
Qed.

(** X22.  With Slack disabled the system is silent: in every world it
    can reach no request has been made to Slack and no handle is held. *)
Theorem reachable_disabled_silent (w : World) :
  reachable false w -> slack_calls w = [] /\ currentMessageTs w = None.
Proof.
  induction 1 as [|env op w Hoff _ [IHcalls IHhandle]]; [done|].
  by rewrite run_disabled_makes_no_request, run_disabled_keeps_handle.
Qed.

Lemma reachable_disabled_silent_witness :
  let w :=
    run env_slack_off (ReportStatus failed_report)
      (run env_slack_off (Register (register_job "svc-a-eod")) empty_world) in
  slack_calls w = [] /\ currentMessageTs w = None.
Proof.
  apply reachable_disabled_silent.
  apply reachable_step; [reflexivity|].
  apply reachable_step; [reflexivity|].
  apply reachable_start.
Defined.

(** *** What is stored stays *)

(** The four writes to the tables, as changes of the world. *)
Lemma create_world (env : Env) (x : Scheduler) (w : World) :
  let w' := (DynamoDBSchedulerRepository.create env x w).2 in
  status_history w' = status_history w
  /\ currentMessageTs w' = currentMessageTs w
  /\ slack_calls w' = slack_calls w
  /\ (schedulers w' = schedulers w
      \/ exists id item,
           scheduler_id item = Some id
           /\ status item = status x
           /\ schedulers w !! id = None
           /\ schedulers w' = <[id := item]> (schedulers w)).
Proof.
  unfold DynamoDBSchedulerRepository.create, bind, new_Date, dynamo, throw.
  destruct (timestamp x) as [ts|]; simpl; [|by auto].
  destruct (dynamo_up env); simpl; [|by auto].
  destruct (scheduler_id x) as [id|] eqn:Hid; simpl; [|by auto].
  destruct (schedulers w !! id) eqn:Hstored; simpl; [by auto|].
  repeat split; [done..|]. right. exists id. eexists.
  split_and!; [| | |reflexivity]; simpl; done.
Qed.

Lemma update_world (env : Env) (id : string) (updates : Scheduler)
    (w : World) :
  let w' := (DynamoDBSchedulerRepository.update env id updates w).2 in
  status_history w' = status_history w
  /\ currentMessageTs w' = currentMessageTs w
  /\ slack_calls w' = slack_calls w
  /\ (schedulers w' = schedulers w
      \/ schedulers w'
         = <[id := DynamoDBSchedulerRepository.apply_updates
                     (clock env (clock_reads w)) updates
                     (DynamoDBSchedulerRepository.item_at id w)]>
             (schedulers w)).
Proof.
  unfold DynamoDBSchedulerRepository.update, bind, new_Date, dynamo, throw.
  destruct (dynamo_up env); simpl; [|by auto].
  destruct (updated_at updates); simpl; by auto.
Qed.

Lemma updateHeartbeat_world (env : Env) (id : string) (w : World) :
  let w' := (DynamoDBSchedulerRepository.updateHeartbeat env id w).2 in
  status_history w' = status_history w
  /\ currentMessageTs w' = currentMessageTs w
  /\ slack_calls w' = slack_calls w
  /\ (schedulers w' = schedulers w
      \/ schedulers w'
         = <[id := DynamoDBSchedulerRepository.with_heartbeat
                     (clock env (clock_reads w))
                     (DynamoDBSchedulerRepository.item_at id w)]>
             (schedulers w)).
Proof.
  unfold DynamoDBSchedulerRepository.updateHeartbeat, bind, new_Date, dynamo,
    throw.
  destruct (dynamo_up env); simpl; by auto.
Qed.

Lemma history_create_world (env : Env) (h : StatusHistory) (w : World) :
  let w' := (DynamoDBStatusHistoryRepository.create env h w).2 in
  schedulers w' = schedulers w
  /\ currentMessageTs w' = currentMessageTs w
  /\ slack_calls w' = slack_calls w
  /\ (status_history w' = status_history w
      \/ exists sid ts item,
           h_scheduler_id item = Some sid
           /\ h_timestamp item = Some ts
           /\ is_Some (h_id item)
           /\ h_scheduler_id h = Some sid
           /\ h_status item = h_status h
           /\ status_history w' = <[(sid, ts) := item]> (status_history w)).
Proof.
  unfold DynamoDBStatusHistoryRepository.create, bind, new_uuid, dynamo,
    throw.
  destruct (h_timestamp h) as [ts|]; simpl; [|by auto].
  destruct (dynamo_up env); simpl; [|by auto].
  destruct (h_scheduler_id h) as [sid|] eqn:Hsid; simpl; [|by auto].
  repeat split; [done..|]. right. exists sid, ts. eexists.
  split_and!; [| | | | |reflexivity]; simpl; by eauto.
Qed.

Lemma run_keeps_scheduler (env : Env) (op : Operation) (w : World)
    (id : string) (s : Scheduler) :
  schedulers w !! id = Some s ->
  exists s', schedulers (run env op w) !! id = Some s' /\ same_identity s s'.
Proof.
  intros Hs.
  set (P := fun w' : World =>
    exists s', schedulers w' !! id = Some s' /\ same_identity s s').
  assert (Hupdate : forall id' updates,
    created_at updates = None ->
    preserves P (DynamoDBSchedulerRepository.update env id' updates)).
  { intros id' updates Hnone w1 (s1 & Hs1 & Hid & Hcreated). unfold P.
    destruct (update_world env id' updates w1) as (_ & _ & _ & [->| ->]);
      [by exists s1|].
    destruct (decide (id' = id)) as [->|Hne].
    - rewrite lookup_insert_eq. eexists. split; [done|].
      rewrite (item_at_stored _ _ _ Hs1). split; simpl; [done|].
      by rewrite Hnone.
    - rewrite lookup_insert_ne by done. by exists s1. }
  assert (P w) by (exists s; by split).
  change (P (run env op w)).
  apply run_keeps; try done.
  - intros x w1 (s1 & Hs1 & Hsame). unfold P.
    destruct (create_world env x w1)
      as (_ & _ & _ & [->|(id' & item & _ & _ & Hnone & ->)]);
      [by exists s1|].
    rewrite lookup_insert_ne by congruence. by exists s1.
  - intros dto. by apply Hupdate.
  - intros id' w1 (s1 & Hs1 & Hid & Hcreated). unfold P.
    destruct (updateHeartbeat_world env id' w1) as (_ & _ & _ & [->| ->]);
      [by exists s1|].
    destruct (decide (id' = id)) as [->|Hne].
    + rewrite lookup_insert_eq. eexists. split; [done|].
      by rewrite (item_at_stored _ _ _ Hs1).
    + rewrite lookup_insert_ne by done. by exists s1.
  - intros dto t. by apply Hupdate.
  - intros x w1 Hw1. unfold P.
    by destruct (history_create_world env (SchedulerService.snapshot x) w1)
      as (-> & _).
Qed.

Lemma run_keeps_history_key (env : Env) (op : Operation) (w : World)
    (key : string * Z) :
  is_Some (status_history w !! key) ->
  is_Some (status_history (run env op w) !! key).
Proof.
  intros Hkey.
  set (P := fun w' : World => is_Some (status_history w' !! key)).
  change (P (run env op w)).
  apply run_keeps; try done; unfold P.
  - intros x w1 Hw1. by destruct (create_world env x w1) as (-> & _).
  - intros dto w1 Hw1. by destruct (update_world env (r_scheduler_id dto)
      (SchedulerService.descriptive_updates dto) w1) as (-> & _).
  - intros id w1 Hw1.
    by destruct (updateHeartbeat_world env id w1) as (-> & _).
  - intros dto t w1 Hw1. by destruct (update_world env (u_scheduler_id dto)
      (SchedulerService.status_updates dto t) w1) as (-> & _).
  - intros x w1 Hw1.
    destruct (history_create_world env (SchedulerService.snapshot x) w1)
      as (_ & _ & _ & [->|(sid & ts & item & _ & _ & _ & _ & _ & ->)]);
      [done|].
    apply lookup_insert_is_Some. destruct (decide ((sid, ts) = key)); auto.
Qed.

(** X23.  No operation removes anything: a stored scheduler is still
    stored after any operation, under the same id and with the same
    [scheduler_id] and [created_at], and a key of the history is still a
    key of the history. *)
Theorem stored_records_stay (env : Env) (op : Operation) (w : World) :
  (forall id s,
     schedulers w !! id = Some s ->
     exists s', schedulers (run env op w) !! id = Some s'
                /\ same_identity s s')
  /\ (forall key,
        is_Some (status_history w !! key) ->
        is_Some (status_history (run env op w) !! key)).
Proof.
  split.
  - intros id s. apply run_keeps_scheduler.
  - intros key. apply run_keeps_history_key.
Qed.

Lemma stored_records_stay_witness :
  exists s',
    schedulers (run env_ok (Register second_registration)
                  (world_with failed_job)) !! "svc-a-eod" = Some s'
    /\ same_identity failed_job s'.
Proof.
  destruct (stored_records_stay env_ok (Register second_registration)
              (world_with failed_job)) as [Hstay _].
  apply (Hstay "svc-a-eod" failed_job). reflexivity.
Defined.

(** *** Only a report changes what a scheduler reports *)

(** X24.  Only a status report changes what a scheduler reports: every
    other operation (registering again, a heartbeat, a read, a check, a
    trigger of the worker) leaves the status, the timestamp, the
    execution time, the error message and the metadata of every stored
    scheduler, and the whole history, as they were.  In particular a
    stale scheduler is never marked as failed. *)
Theorem only_reports_change_the_report (env : Env) (op : Operation)
    (w : World) (id : string) (s : Scheduler) :
  (forall dto, op <> ReportStatus dto) ->
  schedulers w !! id = Some s ->
  (exists s', schedulers (run env op w) !! id = Some s' /\ same_report s s')
  /\ status_history (run env op w) = status_history w.
Proof.
  intros Hop Hs.
  set (P := fun w' : World =>
    (exists s', schedulers w' !! id = Some s' /\ same_report s s')
    /\ status_history w' = status_history w).
  assert (P w) by (split; [exists s; by repeat split|done]).
  change (P (run env op w)).
  apply run_keeps_but_reports; try done.
  - intros x w1 [(s1 & Hs1 & Hsame) Hhistory]. unfold P.
    destruct (create_world env x w1)
      as (Hh & _ & _ & [Ht|(id' & item & _ & _ & Hnone & Ht)]);
      (split; [rewrite Ht|by rewrite Hh]); [by exists s1|].
    rewrite lookup_insert_ne by congruence. by exists s1.
  - intros dto w1 [(s1 & Hs1 & Hsame) Hhistory]. unfold P.
    destruct (update_world env (r_scheduler_id dto)
                (SchedulerService.descriptive_updates dto) w1)
      as (Hh & _ & _ & [Ht|Ht]);
      (split; [rewrite Ht|by rewrite Hh]); [by exists s1|].
    destruct (decide (r_scheduler_id dto = id)) as [Heq|Hne].
    + rewrite Heq, lookup_insert_eq. eexists. split; [done|].
      by rewrite (item_at_stored _ _ _ Hs1).
    + rewrite lookup_insert_ne by done. by exists s1.
  - intros id' w1 [(s1 & Hs1 & Hsame) Hhistory]. unfold P.
    destruct (updateHeartbeat_world env id' w1) as (Hh & _ & _ & [Ht|Ht]);
      (split; [rewrite Ht|by rewrite Hh]); [by exists s1|].
    destruct (decide (id' = id)) as [->|Hne].
    + rewrite lookup_insert_eq. eexists. split; [done|].
      by rewrite (item_at_stored _ _ _ Hs1).
    + rewrite lookup_insert_ne by done. by exists s1.
Qed.

Lemma only_reports_change_the_report_witness :
  exists s',
    schedulers (run env_ok StaleSweep three_running) !! "late" = Some s'
    /\ same_report late_job s'.
Proof.
  destruct (only_reports_change_the_report env_ok StaleSweep three_running
              "late" late_job) as [Hsame _]; [done|reflexivity|].
  exact Hsame.
Defined.

(** *** The items of the history and their schedulers *)

(** The tables after a status report, in a world whose items carry
    their keys: nothing is written, or the scheduler and the item of its
    history are. *)
Lemma updateStatus_tables (env : Env) (dto : UpdateStatusDto) (w : World) :
  keys_consistent w ->
  let id := u_scheduler_id dto in
  let w' := (SchedulerService.updateStatus env dto w).2 in
  (schedulers w' = schedulers w /\ status_history w' = status_history w)
  \/ exists old,
       schedulers w !! id = Some old
       /\ schedulers w' = <[id := reported env w dto old]> (schedulers w)
       /\ status_history w'
          = <[(id, u_timestamp dto) :=
                history_item env w (reported env w dto old)]>
              (status_history w).
Proof.
  intros Hkeys id w'. subst w'.
  destruct (dynamo_up env) eqn:Hup.
  2:{ left. unfold SchedulerService.updateStatus, bind,
        DynamoDBSchedulerRepository.findById.
      by rewrite dynamo_down. }
  destruct (schedulers w !! id) as [old|] eqn:Hold.
  2:{ left. by rewrite updateStatus_unknown. }
  right. exists old. split; [done|].
  rewrite (updateStatus_run env Hup dto w old id Hold (Hkeys _ _ Hold)).
  case_bool_decide; [|done].
  rewrite sendFailedJobAlert_run.
  destruct (SLACK_ENABLED env); [|done].
  by destruct (chat_postMessage env _ _).
Qed.

Lemma run_keeps_history_well_keyed (env : Env) (op : Operation) (w : World) :
  keys_consistent w ->
  history_well_keyed w ->
  history_well_keyed (run env op w).
Proof.
  intros Hkeys Hhistory.
  assert (Hcases : (exists dto, op = ReportStatus dto)
                   \/ (forall dto, op <> ReportStatus dto)).
  { destruct op; try (by right); left; by eexists. }
  destruct Hcases as [[dto ->]|Hop].
  - simpl.
    destruct (updateStatus_tables env dto w Hkeys)
      as [[Ht Hh]|(old & Hold & Ht & Hh)];
      intros sid ts h; rewrite Ht, Hh; [by apply Hhistory|].
    destruct (decide ((u_scheduler_id dto, u_timestamp dto) = (sid, ts)))
      as [[= <- <-]|Hne].
    + rewrite lookup_insert_eq. intros [= <-]. simpl.
      rewrite lookup_insert_eq. split_and!; [|done|by eexists..].
      by apply (Hkeys _ _ Hold).
    + rewrite lookup_insert_ne by done. intros Hh'.
      destruct (Hhistory sid ts h Hh') as (? & ? & ? & ? & ?).
      split_and!; [done..|].
      apply lookup_insert_is_Some'. by right.
  - apply run_keeps_but_reports; try done.
    + intros x w1 Hw1 sid ts h.
      destruct (create_world env x w1)
        as (-> & _ & _ & [->|(id' & item & _ & _ & _ & ->)]);
        [by apply Hw1|].
      intros Hh'. destruct (Hw1 sid ts h Hh') as (? & ? & ? & ? & ?).
      split_and!; [done..|]. apply lookup_insert_is_Some'. by right.
    + intros dto w1 Hw1 sid ts h.
      destruct (update_world env (r_scheduler_id dto)
                  (SchedulerService.descriptive_updates dto) w1)
        as (-> & _ & _ & [->| ->]); [by apply Hw1|].
      intros Hh'. destruct (Hw1 sid ts h Hh') as (? & ? & ? & ? & ?).
      split_and!; [done..|]. apply lookup_insert_is_Some'. by right.
    + intros id w1 Hw1 sid ts h.
      destruct (updateHeartbeat_world env id w1)
        as (-> & _ & _ & [->| ->]); [by apply Hw1|].
      intros Hh'. destruct (Hw1 sid ts h Hh') as (? & ? & ? & ? & ?).
      split_and!; [done..|]. apply lookup_insert_is_Some'. by right.
Qed.

(** X25.  In every world the system can reach, every scheduler carries
    the id it is stored under, and every item of the history carries the
    id and the timestamp it is stored under, has an identifier and a
    status, and belongs to a scheduler that is stored. *)
Theorem reachable_history_well_keyed (enabled : bool) (w : World) :
  reachable enabled w -> keys_consistent w /\ history_well_keyed w.
Proof.
  intros Hreach. split; [by apply (reachable_keys_consistent enabled)|].
  induction Hreach as [|env op w _ Hreach IH]; [by intros sid ts h|].
  apply run_keeps_history_well_keyed; [|done].
  by apply (reachable_keys_consistent enabled).
Qed.

Lemma reachable_history_well_keyed_witness :
  keys_consistent both_completed /\ history_well_keyed both_completed.
Proof.
  apply (reachable_history_well_keyed true).
  do 4 (apply reachable_step; [reflexivity|]).
  apply reachable_start.
Defined.

(** *** The path of a status report *)

Lemma updateStatus_touches_its_scheduler_only (env : Env)
    (dto : UpdateStatusDto) (w : World) (id : string) :
  id <> u_scheduler_id dto ->
  schedulers (SchedulerService.updateStatus env dto w).2 !! id
  = schedulers w !! id.
Proof.
  intros Hne.
  set (P := fun w' : World => schedulers w' !! id = schedulers w !! id).
  change (P (SchedulerService.updateStatus env dto w).2).
  apply updateStatus_keeps; try done; unfold P.
  - intros t w1 Hw1.
    destruct (update_world env (u_scheduler_id dto)
                (SchedulerService.status_updates dto t) w1)
      as (_ & _ & _ & [->| ->]); [done|].
    by rewrite lookup_insert_ne.
  - intros s w1 Hw1.
    by destruct (history_create_world env (SchedulerService.snapshot s) w1)
      as (-> & _).
Qed.

(** X20.  [updateStatus] of the controller reports for the scheduler of
    the path: the call is the service's [updateStatus] on the body with
    its [scheduler_id] replaced by the id of the path, so a scheduler
    other than that of the path, the one named in the body included, is
    left as it was. *)
Theorem controller_updateStatus_follows_the_path (env : Env) (id : string)
    (dto : UpdateStatusDto) (w : World) :
  SchedulerController.updateStatus env id dto w
  = SchedulerService.updateStatus env
      (SchedulerController.with_scheduler_id id dto) w
  /\ forall id',
       id' <> id ->
       schedulers (SchedulerController.updateStatus env id dto w).2 !! id'
       = schedulers w !! id'.
Proof.
  rewrite controller_updateStatus_run. split; [done|].
  intros id' Hne. by apply updateStatus_touches_its_scheduler_only.
Qed.

(** *** A report and the history *)


